(** * Signed offer fill: the create-contingent-pool fill script

    A shallow embedding of the script that fetches a create-contingent-pool
    offer, computes the proportional maker amount, tops up the ERC20
    allowances, runs [_checkConditions] and submits the fill.  Amounts are ethers [BigNumber]s
    (arbitrary-precision integers), addresses are strings. *)

From stdpp Require Import base strings gmap list.
From Stdlib Require Import ZArith Lia.

Local Open Scope string_scope.
Local Open Scope Z_scope.

(** ** ethers' BigNumber *)

(** The operations of ethers v5 [BigNumber] the script uses.  Values are
    unbounded integers; [div] truncates toward zero and throws on a zero
    divisor, which [None] stands for. *)
Module BigNumber.

Definition add (a b : Z) : Z := a + b.

Definition mul (a b : Z) : Z := a * b.

Definition div (a b : Z) : option Z :=
  if b =? 0 then None else Some (Z.quot a b).

Definition lt (a b : Z) : bool := a <? b.

Definition gt (a b : Z) : bool := b <? a.

Definition eq (a b : Z) : bool := a =? b.

End BigNumber.

(** ** Addresses, offers and the offer state *)

Abbreviation address := string (only parsing).

(** [ethers.constants.AddressZero]. *)
Definition AddressZero : address :=
  "0x0000000000000000000000000000000000000000".

Definition Signature : Type := string.

(** The fields of [OfferCreateContingentPool] the script reads.  The amounts
    arrive as decimal strings of unsigned integers and are turned into
    [BigNumber]s with [BigNumber.from]; they are kept as integers here. *)
Record OfferCreateContingentPool : Type := {
  maker : address;
  taker : address;
  makerCollateralAmount : Z;
  takerCollateralAmount : Z;
  minimumTakerFillAmount : Z;
  offerExpiry : Z;
  salt : string
}.

(** Modelled from the spec: the [OfferStatus] enum of the constants module,
    which the script imports; the numbering is the one of the comment in
    [_checkConditions] (0: INVALID, 1: CANCELLED, 2: FILLED, 3: EXPIRED,
    4: FILLABLE). *)
Inductive OfferStatus : Type :=
  | Invalid
  | Cancelled
  | Filled
  | Expired
  | Fillable.

#[global] Instance OfferStatus_eq_dec : EqDecision OfferStatus.
Proof. solve_decision. Defined.

Definition OfferStatus_code (s : OfferStatus) : Z :=
  match s with
  | Invalid => 0
  | Cancelled => 1
  | Filled => 2
  | Expired => 3
  | Fillable => 4
  end.

(** [a === b] on two status values. *)
Definition OfferStatus_eqb (a b : OfferStatus) : bool :=
  OfferStatus_code a =? OfferStatus_code b.

(** [relevantStateParams.offerInfo]. *)
Record OfferInfo : Type := {
  status : OfferStatus;
  takerFilledAmount : Z
}.

(** What [diva.getOfferRelevantStateCreateContingentPool] returns. *)
Record RelevantStateParams : Type := {
  offerInfo : OfferInfo;
  actualTakerFillableAmount : Z;
  isValidInputParamsCreateContingentPool : bool
}.

Record DivaDomain : Type := {
  name : string;
  version : string;
  chainId : Z;
  verifyingContract : address
}.

(** An EIP-712 type table, [Record<string, {type, name}[]>]. *)
Definition TypedDataTypes : Type := list (string * list (string * string)).

(** ** Errors *)

(** One reason per [throw new Error(...)] of [_checkConditions], in the
    order of the source. *)
Inductive Reason : Type :=
  | StatusInvalid
  | StatusCancelled
  | StatusFilled
  | StatusExpired
  | InvalidParameters
  | ExceedsFillable
  | InvalidSignature
  | Unauthorized
  | BelowMinimum
  | InsufficientTakerBalance
  | InsufficientMakerBalance.

(** The text the script throws for each reason. *)
Definition message (r : Reason) : string :=
  match r with
  | StatusInvalid => "Offer is invalid because takerCollateralAmount is zero."
  | StatusCancelled => "Offer was cancelled."
  | StatusFilled => "Offer is already filled."
  | StatusExpired => "Offer is already expired."
  | InvalidParameters => "Invalid create contingent pool parameters."
  | ExceedsFillable => "Actually fillable amount is smaller than takerFillAmount."
  | InvalidSignature => "Invalid signature."
  | Unauthorized => "Offer is reserved for a different address."
  | BelowMinimum => "takerFillAmount is smaller than minimumTakerFillAmount."
  | InsufficientTakerBalance => "Taker has insufficient collateral token balance."
  | InsufficientMakerBalance => "Maker has insufficient collateral token balance."
  end.

(** What a run can throw: one of the script's own errors, or a fault raised
    inside ethers (division by zero in [BigNumber.div], a signature that
    [verifyTypedData] cannot recover an address from). *)
Inductive Exn : Type :=
  | Thrown (r : Reason)
  | DivisionByZero
  | RecoveryFailed.

Coercion Thrown : Reason >-> Exn.

Inductive Outcome (A : Type) : Type :=
  | Returned (a : A)
  | Raised (e : Exn).

Arguments Returned {A} a.
Arguments Raised {A} e.

(** ** The chain the script talks to *)

(** Modelled from the spec: the collateral token is an ERC20-style
    balance/allowance collaborator (the MockERC20 contract is not part of the
    scripts): balances per owner, allowances per (owner, spender), absent
    entries reading as zero. *)
Record Token : Type := {
  balances : gmap address Z;
  allowances : gmap (address * address) Z
}.

(** The state-changing transactions a script sends. *)
Inductive Tx : Type :=
  | Approve (owner spender : address) (amount : Z)
  | FillOfferCreateContingentPool
      (sender : address) (offer : OfferCreateContingentPool)
      (signature : Signature) (takerFillAmount : Z).

(** The token state and the transactions sent so far, oldest first. *)
Record World : Type := {
  token : Token;
  sent : list Tx
}.

(** ** The script monad: state of the chain plus exceptions *)

Definition M (A : Type) : Type := World -> Outcome A * World.

Definition ret {A} (a : A) : M A := fun w => (Returned a, w).

Definition bind {A B} (c : M A) (k : A -> M B) : M B :=
  fun w =>
    match c w with
    | (Returned a, w') => k a w'
    | (Raised e, w') => (Raised e, w')
    end.

Definition throw {A} (e : Exn) : M A := fun w => (Raised e, w).

Notation "x <- c ;; k" := (bind c (fun x => k))
  (at level 100, c at next level, right associativity).
Notation "c ;; k" := (bind c (fun _ => k))
  (at level 100, right associativity).

(** [if (cond) { throw new Error(...) }]. *)
Definition throw_if (cond : bool) (r : Reason) : M unit :=
  if cond then throw r else ret tt.

(** A value that ethers either computes or throws on. *)
Definition of_div (r : option Z) : M Z :=
  match r with
  | Some q => ret q
  | None => throw DivisionByZero
  end.

Definition outcome {A} (c : M A) (w : World) : Outcome A := fst (c w).
Definition world_after {A} (c : M A) (w : World) : World := snd (c w).

(** *** The ERC20 calls *)

(** [collateralToken.balanceOf(owner)]. *)
Definition balanceOf (owner : address) : M Z :=
  fun w => (Returned (default 0 (balances (token w) !! owner)), w).

(** [collateralToken.allowance(owner, spender)]. *)
Definition allowance (owner spender : address) : M Z :=
  fun w => (Returned (default 0 (allowances (token w) !! (owner, spender))), w).

(** Modelled from the spec: [collateralToken.connect(owner).approve(spender,
    amount)] followed by [approveTx.wait()]: the ERC20 approval replaces the
    allowance of (owner, spender) by [amount]. *)
Definition approve (owner spender : address) (amount : Z) : M unit :=
  fun w =>
    (Returned tt,
     {| token := {| balances := balances (token w);
                    allowances := <[(owner, spender) := amount]> (allowances (token w)) |};
        sent := sent w ++ [Approve owner spender amount] |}).

(** Sending a transaction to the settlement contract.  What the contract
    does with it is outside the script; the script's part ends with the
    submission. *)
Definition submit (tx : Tx) : M unit :=
  fun w => (Returned tt, {| token := token w; sent := sent w ++ [tx] |}).

(** ** The fill script *)

(** What the offer relay returns for an offer hash: the offer's fields, the
    signing domain's chain and contract, and the maker's signature. *)
Record OfferResponse : Type := {
  api_offer : OfferCreateContingentPool;
  api_chainId : Z;
  api_verifyingContract : address;
  api_signature : Signature
}.

(** [makerFillAmount]: makerCollateralAmount.mul(takerFillAmount)
    .div(takerCollateralAmount). *)
Definition makerFillAmount
    (offer : OfferCreateContingentPool) (takerFillAmount : Z) : option Z :=
  BigNumber.div
    (BigNumber.mul (makerCollateralAmount offer) takerFillAmount)
    (takerCollateralAmount offer).

(** [totalCollateralFillAmount]: makerCollateralAmount
    .add(takerCollateralAmount).mul(takerFillAmount)
    .div(takerCollateralAmount), the amount approved when taker = maker. *)
Definition totalCollateralFillAmount
    (offer : OfferCreateContingentPool) (takerFillAmount : Z) : option Z :=
  BigNumber.div
    (BigNumber.mul
       (BigNumber.add (makerCollateralAmount offer) (takerCollateralAmount offer))
       takerFillAmount)
    (takerCollateralAmount offer).

(** ** Sample data

    The offer of the spec's concrete scenarios (maker amount 100, taker
    amount 50, minimum 10), open to any taker, and accounts to run it on. *)

Definition alice : address := "0x9AdEFeb576dcF52F5220709c1B267d89d5208D78".
Definition bob : address := "0x245B8ABbC1B70B370d1b81398dE0a7920B25E7ca".
Definition carol : address := "0x2ADdE7aBe04Bc1F14a3c397251A01276344Cc8a8".
Definition diva_address : address := "0xcBA1fBd153291Ab72055193Fa5615660d54eD370".

Definition sample_offer : OfferCreateContingentPool :=
  {| maker := alice; taker := AddressZero;
     makerCollateralAmount := 100; takerCollateralAmount := 50;
     minimumTakerFillAmount := 10; offerExpiry := 1700000000;
     salt := "1667548800000" |}.

(** The same offer reserved for [bob]. *)
Definition reserved_offer : OfferCreateContingentPool :=
  {| maker := alice; taker := bob;
     makerCollateralAmount := 100; takerCollateralAmount := 50;
     minimumTakerFillAmount := 10; offerExpiry := 1700000000;
     salt := "1667548800000" |}.

Definition sample_signature : Signature := "0x5161".

Definition sample_response (offer : OfferCreateContingentPool) : OfferResponse :=
  {| api_offer := offer; api_chainId := 80001;
     api_verifyingContract := diva_address;
     api_signature := sample_signature |}.

Definition sample_domain : DivaDomain :=
  {| name := "DIVA Protocol"; version := "1"; chainId := 80001;
     verifyingContract := diva_address |}.

Definition sample_type : TypedDataTypes :=
  [("OfferCreateContingentPool",
    [("address", "maker"); ("address", "taker");
     ("uint256", "makerCollateralAmount"); ("uint256", "takerCollateralAmount")])].

(** A signature check that recovers the offer's maker. *)
Definition recovers_maker
    (_ : DivaDomain) (_ : TypedDataTypes) (offer : OfferCreateContingentPool)
    (_ : Signature) : option address :=
  Some (maker offer).

(** An offer state that does not depend on the token: the given status and
    filled amount, valid parameters, the whole remainder fillable. *)
Definition state_view (st : OfferStatus) (filled : Z)
    (_ : Token) (offer : OfferCreateContingentPool) (_ : Signature)
  : RelevantStateParams :=
  {| offerInfo := {| status := st; takerFilledAmount := filled |};
     actualTakerFillableAmount := takerCollateralAmount offer - filled;
     isValidInputParamsCreateContingentPool := true |}.

(** A chain on which every account of [holders] holds [balance] tokens, no
    allowance is set and nothing was sent yet. *)
Definition fresh_world (holders : list address) (balance : Z) : World :=
  {| token := {| balances := list_to_map (map (fun a => (a, balance)) holders);
                 allowances := ∅ |};
     sent := [] |}.

(** ** The add-liquidity scripts

    Two scripts add collateral to an existing pool: [AddLiquidity] is
    scripts/examples/addLiquidity.ts and [Add] is the script run as
    [yarn diva::add].  Both validate first, then top up the allowance to the
    exact amount, then send [addLiquidity]; they differ in how
    [_checkConditions] reports a zero recipient. *)

(** The fields of [LibDIVAStorage.PoolStruct] the scripts use. *)
Record PoolStruct : Type := {
  collateralToken : address;
  expiryTime : Z;
  collateralBalance : Z;
  capacity : Z
}.

(** What a script is run against: the clock reading of
    [getCurrentTimestamp()], JavaScript's [Number(...)] on an unsigned
    integer (the nearest double, itself an integer), the settlement
    contract's [getPoolParameters] and address, and the first signer. *)
Record PoolEnv : Type := {
  getCurrentTimestamp : Z;
  Number : Z -> Z;
  getPoolParameters : string -> PoolStruct;
  diva : address;
  liquidityProvider : address
}.

Inductive PoolTx : Type :=
  | ApproveCollateral (owner spender : address) (amount : Z)
  | AddLiquidityTx (sender : address) (poolId : string) (amount : Z)
      (longRecipient shortRecipient : address).

(** The pool's collateral token and the transactions sent so far, oldest
    first. *)
Record PoolWorld : Type := {
  pool_token : Token;
  pool_sent : list PoolTx
}.

(** A validation either returns or throws one of its reasons. *)
Inductive Checked (R : Type) : Type :=
  | Passed
  | Rejected (r : R).

Arguments Passed {R}.
Arguments Rejected {R} r.

(** Modelled from the spec: [erc20Contract.approve(spender, amount)] sent by
    [owner] and waited for: the ERC20 approval replaces the allowance. *)
Definition approveCollateral (owner spender : address) (amount : Z)
    (w : PoolWorld) : PoolWorld :=
  {| pool_token :=
       {| balances := balances (pool_token w);
          allowances := <[(owner, spender) := amount]> (allowances (pool_token w)) |};
     pool_sent := pool_sent w ++ [ApproveCollateral owner spender amount] |}.

(** The part of [main] both scripts share once the validation has passed:
    read the allowance, approve the exact amount when it is insufficient,
    send [addLiquidity]. *)
Definition approveAndAdd (env : PoolEnv) (poolId : string) (additionalAmount : Z)
    (longRecipient shortRecipient : address) (w : PoolWorld) : PoolWorld :=
  let allowance :=
    default 0 (allowances (pool_token w) !! (liquidityProvider env, diva env)) in
  let approved :=
    if BigNumber.lt allowance additionalAmount
    then approveCollateral (liquidityProvider env) (diva env) additionalAmount w
    else w in
  {| pool_token := pool_token approved;
     pool_sent := pool_sent approved
                  ++ [AddLiquidityTx (liquidityProvider env) poolId additionalAmount
                        longRecipient shortRecipient] |}.

Module AddLiquidity.

Inductive Reason : Type :=
  | LongRecipientZero
  | ShortRecipientZero
  | PoolExpired
  | CapacityExceeded
  | InsufficientCollateral.

Definition message (r : Reason) : string :=
  match r with
  | LongRecipientZero => "Long token recipient cannot be the zero address."
  | ShortRecipientZero => "Short token recipient cannot be the zero address."
  | PoolExpired => "Pool already expired. No addition of liquidity possible anymore."
  | CapacityExceeded => "Pool capacity exceeded."
  | InsufficientCollateral => "Insufficient collateral tokens in wallet."
  end.

(** [_checkConditions] of scripts/examples/addLiquidity.ts. *)
Definition _checkConditions (env : PoolEnv)
    (poolParams : PoolStruct) (additionalAmount : Z)
    (longRecipient shortRecipient : address) (collateralBalanceUser : Z)
  : Checked Reason :=
  let now := getCurrentTimestamp env in
  if String.eqb longRecipient AddressZero then Rejected LongRecipientZero
  else if String.eqb shortRecipient AddressZero then Rejected ShortRecipientZero
  else if now >=? Number env (expiryTime poolParams) then Rejected PoolExpired
  else if BigNumber.gt
            (BigNumber.add (collateralBalance poolParams) additionalAmount)
            (capacity poolParams)
       then Rejected CapacityExceeded
  else if BigNumber.lt collateralBalanceUser additionalAmount
       then Rejected InsufficientCollateral
  else Passed.

(** [main], up to the submission of [addLiquidity]; the pool id, the
    amount and the recipients are the script's input arguments. *)
Definition main (env : PoolEnv) (poolId : string) (additionalAmount : Z)
    (longRecipient shortRecipient : address) (w : PoolWorld)
  : Checked Reason * PoolWorld :=
  let poolParamsBefore := getPoolParameters env poolId in
  let balance :=
    default 0 (balances (pool_token w) !! liquidityProvider env) in
  match _checkConditions env poolParamsBefore additionalAmount
          longRecipient shortRecipient balance with
  | Rejected r => (Rejected r, w)
  | Passed =>
      (Passed, approveAndAdd env poolId additionalAmount
                 longRecipient shortRecipient w)
  end.

End AddLiquidity.

Module Add.

Inductive Reason : Type :=
  | RecipientZero
  | PoolExpired
  | CapacityExceeded
  | InsufficientCollateral.

Definition message (r : Reason) : string :=
  match r with
  | RecipientZero => "Long and short token recipient cannot be zero address."
  | PoolExpired => "Pool already expired. No addition of liquidity possible anymore."
  | CapacityExceeded => "Pool capacity exceeded."
  | InsufficientCollateral => "Insufficient collateral tokens in wallet."
  end.

(** [_checkConditions] of the [yarn diva::add] script. *)
Definition _checkConditions (env : PoolEnv)
    (poolParams : PoolStruct) (additionalAmount : Z)
    (longRecipient shortRecipient : address) (collateralBalanceUser : Z)
  : Checked Reason :=
  let now := getCurrentTimestamp env in
  if String.eqb longRecipient AddressZero || String.eqb shortRecipient AddressZero
  then Rejected RecipientZero
  else if now >=? Number env (expiryTime poolParams) then Rejected PoolExpired
  else if BigNumber.gt
            (BigNumber.add (collateralBalance poolParams) additionalAmount)
            (capacity poolParams)
       then Rejected CapacityExceeded
  else if BigNumber.lt collateralBalanceUser additionalAmount
       then Rejected InsufficientCollateral
  else Passed.

(** [main], up to the submission of [addLiquidity]. *)
Definition main (env : PoolEnv) (poolId : string) (additionalAmount : Z)
    (longRecipient shortRecipient : address) (w : PoolWorld)
  : Checked Reason * PoolWorld :=
  let poolParamsBefore := getPoolParameters env poolId in
  let balance :=
    default 0 (balances (pool_token w) !! liquidityProvider env) in
  match _checkConditions env poolParamsBefore additionalAmount
          longRecipient shortRecipient balance with
  | Rejected r => (Rejected r, w)
  | Passed =>
      (Passed, approveAndAdd env poolId additionalAmount
                 longRecipient shortRecipient w)
  end.

End Add.

(** A pool with room for 1000 more tokens, expiring at 1700000000, read at
    1690000000 by [alice]. *)
Definition sample_pool : PoolStruct :=
  {| collateralToken := "0x00169E8d26FB0Bc936c0893d95922bbd0b50b88c";
     expiryTime := 1700000000; collateralBalance := 4000; capacity := 5000 |}.

Definition sample_env : PoolEnv :=
  {| getCurrentTimestamp := 1690000000;
     Number := fun z => z;
     getPoolParameters := fun _ => sample_pool;
     diva := diva_address;
     liquidityProvider := alice |}.

Definition sample_poolId : string :=
  "0x1de191d66c6848d7c0d33d16b5041cd0ac5c46f208650cf63e1f3c96d4b3a521".

Definition fresh_pool_world (holders : list address) (balance : Z) : PoolWorld :=
  {| pool_token := {| balances := list_to_map (map (fun a => (a, balance)) holders);
                      allowances := ∅ |};
     pool_sent := [] |}.

Section FillOffer.

Set Default Proof Using "Type".

(** [diva.address], i.e. DIVA_ADDRESS[network.name]. *)
Variable DIVA_ADDRESS : address.

(** The EIP-712 type table of create-pool offers (constants module). *)
Variable CREATE_POOL_TYPE : TypedDataTypes.

(** [ethers.utils.verifyTypedData]: the recovered signer, or [None] when
    ethers throws on the signature. *)
Variable verifyTypedData :
  DivaDomain -> TypedDataTypes -> OfferCreateContingentPool -> Signature ->
  option address.

(** The settlement contract's view of an offer, evaluated on the chain
    state at the time of the call. *)
Variable getOfferRelevantStateCreateContingentPool :
  Token -> OfferCreateContingentPool -> Signature -> RelevantStateParams.

Definition getOfferRelevantState
    (offer : OfferCreateContingentPool) (signature : Signature)
  : M RelevantStateParams :=
  fun w =>
    (Returned (getOfferRelevantStateCreateContingentPool (token w) offer signature), w).

Definition recover (r : option address) : M address :=
  match r with
  | Some a => ret a
  | None => throw RecoveryFailed
  end.

(** [_checkConditions] of the fill script. *)
Definition _checkConditions
    (divaDomain : DivaDomain)
    (offerCreateContingentPool : OfferCreateContingentPool)
    (type : TypedDataTypes)
    (signature : Signature)
    (userAddress : address)
    (takerFillAmount makerFillAmount : Z)
    (takerCollateralTokenBalance makerCollateralTokenBalance : Z) : M unit :=
  relevantStateParams <-
    getOfferRelevantState offerCreateContingentPool signature ;;
  throw_if
    (OfferStatus_eqb (status (offerInfo relevantStateParams)) Invalid)
    StatusInvalid ;;
  throw_if
    (OfferStatus_eqb (status (offerInfo relevantStateParams)) Cancelled)
    StatusCancelled ;;
  throw_if
    (OfferStatus_eqb (status (offerInfo relevantStateParams)) Filled)
    StatusFilled ;;
  throw_if
    (OfferStatus_eqb (status (offerInfo relevantStateParams)) Expired)
    StatusExpired ;;
  throw_if
    (negb (isValidInputParamsCreateContingentPool relevantStateParams))
    InvalidParameters ;;
  throw_if
    (BigNumber.lt (actualTakerFillableAmount relevantStateParams) takerFillAmount)
    ExceedsFillable ;;
  recoveredAddress <-
    recover (verifyTypedData divaDomain type offerCreateContingentPool signature) ;;
  throw_if
    (negb (String.eqb recoveredAddress (maker offerCreateContingentPool)))
    InvalidSignature ;;
  throw_if
    (negb (String.eqb (taker offerCreateContingentPool) AddressZero)
     && negb (String.eqb userAddress (taker offerCreateContingentPool)))
    Unauthorized ;;
  throw_if
    (BigNumber.eq (takerFilledAmount (offerInfo relevantStateParams)) 0
     && BigNumber.lt takerFillAmount (minimumTakerFillAmount offerCreateContingentPool))
    BelowMinimum ;;
  throw_if
    (BigNumber.lt takerCollateralTokenBalance takerFillAmount)
    InsufficientTakerBalance ;;
  throw_if
    (BigNumber.lt makerCollateralTokenBalance makerFillAmount)
    InsufficientMakerBalance.

(** The block the script repeats for each party:
    if (allowance.lt(required)) approve(diva.address, required.add(1)),
    wait, and read the allowance again. *)
Definition setAllowanceIfInsufficient
    (owner : address) (current required : Z) : M Z :=
  if BigNumber.lt current required then
    (approve owner DIVA_ADDRESS (BigNumber.add required 1) ;;
     allowance owner DIVA_ADDRESS)
  else ret current.

(** Reading the allowance and topping it up: the allowance gate of one
    party as the script performs it. *)
Definition ensureAllowance (owner : address) (required : Z) : M Z :=
  current <- allowance owner DIVA_ADDRESS ;;
  setAllowanceIfInsufficient owner current required.

(** The allowance part of [main]: one combined approval when the taker is
    the maker, one approval per party otherwise.  Returns the pair
    (allowanceMaker, allowanceTaker). *)
Definition setAllowances
    (offer : OfferCreateContingentPool) (takerAddress : address)
    (takerFillAmount makerFill : Z)
    (allowanceMaker allowanceTaker : Z) : M (Z * Z) :=
  if String.eqb takerAddress (maker offer) then
    (total <- of_div (totalCollateralFillAmount offer takerFillAmount) ;;
     if BigNumber.lt allowanceMaker total then
       (approve (maker offer) DIVA_ADDRESS (BigNumber.add total 1) ;;
        a <- allowance (maker offer) DIVA_ADDRESS ;;
        ret (a, a))
     else ret (allowanceMaker, allowanceTaker))
  else
    (am <- setAllowanceIfInsufficient (maker offer) allowanceMaker makerFill ;;
     atk <- setAllowanceIfInsufficient takerAddress allowanceTaker takerFillAmount ;;
     ret (am, atk)).

(** What [main] does before the validation: the maker amount, the balance
    and allowance reads, and the approvals.  Returns the maker amount and
    the balances read (taker, maker). *)
Definition prepare
    (offer : OfferCreateContingentPool) (takerAddress : address)
    (takerFillAmount : Z) : M (Z * Z * Z) :=
  makerFill <- of_div (makerFillAmount offer takerFillAmount) ;;
  collateralTokenBalanceMakerBefore <- balanceOf (maker offer) ;;
  collateralTokenBalanceTakerBefore <- balanceOf takerAddress ;;
  allowanceMaker <- allowance (maker offer) DIVA_ADDRESS ;;
  allowanceTaker <- allowance takerAddress DIVA_ADDRESS ;;
  setAllowances offer takerAddress takerFillAmount makerFill
    allowanceMaker allowanceTaker ;;
  ret (makerFill, collateralTokenBalanceTakerBefore,
       collateralTokenBalanceMakerBefore).

(** [main], from the offer fetched from the relay to the submission of the
    fill; [takerAddress] is the second signer and [takerFillAmount] is
    parseUnits(takerFillAmountInput, decimals). *)
Definition main
    (response : OfferResponse) (takerAddress : address)
    (takerFillAmount : Z) : M unit :=
  let divaDomain :=
    {| name := "DIVA Protocol"; version := "1";
       chainId := api_chainId response;
       verifyingContract := api_verifyingContract response |} in
  let offerCreateContingentPool := api_offer response in
  let signature := api_signature response in
  r <- prepare offerCreateContingentPool takerAddress takerFillAmount ;;
  let '(makerFill, balanceTaker, balanceMaker) := r in
  _checkConditions divaDomain offerCreateContingentPool CREATE_POOL_TYPE
    signature takerAddress takerFillAmount makerFill
    balanceTaker balanceMaker ;;
  submit (FillOfferCreateContingentPool takerAddress
            offerCreateContingentPool signature takerFillAmount).

(** *** The validation as an ordered list of checks *)

(** The first check of a list that fails decides; when none fails the
    validation succeeds.  Each entry pairs "this check fails" with what is
    reported. *)
Fixpoint first_failure (checks : list (bool * Exn)) : Outcome unit :=
  match checks with
  | [] => Returned tt
  | (fails, e) :: rest => if fails then Raised e else first_failure rest
  end.

(** The checks of the preflight validation in the order the
    specification lists them: (1) status Invalid, Cancelled, Filled,
    Expired; (2) structural parameters; (3) request exceeds the remaining
    fillable amount; (4) signature recovery; (5) taker authorization;
    (6) first-fill minimum; (7) taker balance; (8) maker balance. *)
Definition preflight_checks
    (state : RelevantStateParams) (recovered : option address)
    (offer : OfferCreateContingentPool) (requester : address)
    (requested computedMaker takerBalance makerBalance : Z)
  : list (bool * Exn) :=
  [ (bool_decide (status (offerInfo state) = Invalid), Thrown StatusInvalid);
    (bool_decide (status (offerInfo state) = Cancelled), Thrown StatusCancelled);
    (bool_decide (status (offerInfo state) = Filled), Thrown StatusFilled);
    (bool_decide (status (offerInfo state) = Expired), Thrown StatusExpired);
    (bool_decide (isValidInputParamsCreateContingentPool state = false),
     Thrown InvalidParameters);
    (bool_decide (actualTakerFillableAmount state < requested),
     Thrown ExceedsFillable);
    (bool_decide (recovered = None), RecoveryFailed);
    (bool_decide (recovered <> Some (maker offer)), Thrown InvalidSignature);
    (bool_decide (taker offer <> AddressZero /\ requester <> taker offer),
     Thrown Unauthorized);
    (bool_decide (takerFilledAmount (offerInfo state) = 0
                  /\ requested < minimumTakerFillAmount offer),
     Thrown BelowMinimum);
    (bool_decide (takerBalance < requested), Thrown InsufficientTakerBalance);
    (bool_decide (makerBalance < computedMaker), Thrown InsufficientMakerBalance) ].

(** Checks (1) to (4) pass: the offer is fillable, its parameters are
    valid, the request fits the remaining fillable amount and the
    signature recovers to the maker. *)
Definition passes_up_to_signature
    (state : RelevantStateParams) (recovered : option address)
    (offer : OfferCreateContingentPool) (requested : Z) : Prop :=
  status (offerInfo state) = Fillable
  /\ isValidInputParamsCreateContingentPool state = true
  /\ requested <= actualTakerFillableAmount state
  /\ recovered = Some (maker offer).

(** Check (5) passes. *)
Definition taker_allowed
    (offer : OfferCreateContingentPool) (requester : address) : Prop :=
  taker offer = AddressZero \/ requester = taker offer.

Definition is_approve (tx : Tx) : Prop :=
  match tx with
  | Approve _ _ _ => True
  | _ => False
  end.

(** *** Running the validation *)

Ltac run_script :=
  unfold bind, throw_if, throw, ret, recover, of_div, getOfferRelevantState,
    balanceOf, allowance, approve, submit, outcome, world_after; simpl.

Ltac split_guards :=
  repeat match goal with
    | |- context [String.eqb ?a ?b] => destruct (String.eqb_spec a b); simpl
    | |- context [Z.ltb ?a ?b] => destruct (Z.ltb_spec a b); simpl
    | |- context [Z.eqb ?a ?b] => destruct (Z.eqb_spec a b); simpl
    end.

(** [_checkConditions] reads the chain and leaves it as it was; its
    outcome is the first failing check of [preflight_checks]. *)
Lemma _checkConditions_run
    (divaDomain : DivaDomain) (offer : OfferCreateContingentPool)
    (type : TypedDataTypes) (signature : Signature) (userAddress : address)
    (takerFillAmount makerFill takerBalance makerBalance : Z) (w : World) :
  _checkConditions divaDomain offer type signature userAddress
    takerFillAmount makerFill takerBalance makerBalance w
  = (first_failure
       (preflight_checks
          (getOfferRelevantStateCreateContingentPool (token w) offer signature)
          (verifyTypedData divaDomain type offer signature)
          offer userAddress takerFillAmount makerFill
          takerBalance makerBalance),
     w).
Proof.
  clear DIVA_ADDRESS CREATE_POOL_TYPE.
  unfold _checkConditions, preflight_checks, BigNumber.lt, BigNumber.eq.
  run_script.
  destruct (status _); simpl; try reflexivity.
  destruct (isValidInputParamsCreateContingentPool _); simpl; try reflexivity.
  destruct (verifyTypedData _ _ _ _) as [recovered|]; simpl;
    split_guards; repeat case_bool_decide;
    try reflexivity; try lia; try congruence; intuition congruence.
Qed.

Lemma _checkConditions_outcome
    (divaDomain : DivaDomain) (offer : OfferCreateContingentPool)
    (type : TypedDataTypes) (signature : Signature) (userAddress : address)
    (takerFillAmount makerFill takerBalance makerBalance : Z) (w : World) :
  outcome
    (_checkConditions divaDomain offer type signature userAddress
       takerFillAmount makerFill takerBalance makerBalance) w
  = first_failure
      (preflight_checks
         (getOfferRelevantStateCreateContingentPool (token w) offer signature)
         (verifyTypedData divaDomain type offer signature)
         offer userAddress takerFillAmount makerFill
         takerBalance makerBalance).
Proof. unfold outcome. now rewrite _checkConditions_run. Qed.

Ltac decide_checks :=
  unfold preflight_checks; simpl;
  repeat case_bool_decide; simpl;
  try reflexivity; try lia; try congruence; try (intuition congruence).

(** C2: the validation runs its checks in the order status (Invalid,
    Cancelled, Filled, Expired), structural parameters, remaining fillable
    amount, signature recovery, taker authorization, first-fill minimum,
    taker balance, maker balance, and the first check that fails decides
    the error.  In particular an offer whose status is Expired is reported
    as StatusExpired whatever the balances are, so also when the taker
    balance is insufficient. *)
Theorem checkConditions_order
    (divaDomain : DivaDomain) (offer : OfferCreateContingentPool)
    (type : TypedDataTypes) (signature : Signature) (userAddress : address)
    (takerFillAmount makerFill takerBalance makerBalance : Z) (w : World) :
  let state := getOfferRelevantStateCreateContingentPool (token w) offer signature in
  let run :=
    _checkConditions divaDomain offer type signature userAddress
      takerFillAmount makerFill takerBalance makerBalance in
  outcome run w
  = first_failure
      (preflight_checks state (verifyTypedData divaDomain type offer signature)
         offer userAddress takerFillAmount makerFill takerBalance makerBalance)
  /\ (status (offerInfo state) = Expired ->
      takerBalance < takerFillAmount ->
      outcome run w = Raised (Thrown StatusExpired)
      /\ outcome run w <> Raised (Thrown InsufficientTakerBalance)).
Proof.
  intros state run. subst run. rewrite _checkConditions_outcome.
  split; [reflexivity|].
  fold state. intros Hexpired _. unfold preflight_checks.
  rewrite Hexpired. simpl. split; congruence.
Qed.

(** C3: the validation fails with BelowMinimum only if the cumulative taker
    filled amount reported for the offer is 0 and the requested amount is
    below the offer's minimum, and, the checks before it passing (status,
    parameters, fillable amount, signature, taker authorization), it does
    fail with BelowMinimum in that case; once the filled amount is not 0 a
    request below the minimum is accepted, and the validation succeeds when
    the two balance checks pass as well. *)
Theorem minimum_applies_to_first_fill_only
    (divaDomain : DivaDomain) (offer : OfferCreateContingentPool)
    (type : TypedDataTypes) (signature : Signature) (userAddress : address)
    (takerFillAmount makerFill takerBalance makerBalance : Z) (w : World) :
  let state := getOfferRelevantStateCreateContingentPool (token w) offer signature in
  let run :=
    _checkConditions divaDomain offer type signature userAddress
      takerFillAmount makerFill takerBalance makerBalance in
  (outcome run w = Raised (Thrown BelowMinimum) ->
   takerFilledAmount (offerInfo state) = 0
   /\ takerFillAmount < minimumTakerFillAmount offer)
  /\ (passes_up_to_signature state (verifyTypedData divaDomain type offer signature)
        offer takerFillAmount ->
      taker_allowed offer userAddress ->
      (outcome run w = Raised (Thrown BelowMinimum)
       <-> takerFilledAmount (offerInfo state) = 0
           /\ takerFillAmount < minimumTakerFillAmount offer)
      /\ (takerFilledAmount (offerInfo state) <> 0 ->
          takerFillAmount <= takerBalance ->
          makerFill <= makerBalance ->
          outcome run w = Returned tt)).
Proof.
  intros state run. subst run. rewrite _checkConditions_outcome. fold state.
  split.
  - decide_checks.
  - intros (Hstatus & Hvalid & Hfits & Hsig) Hallowed.
    unfold preflight_checks. rewrite Hstatus, Hvalid, Hsig.
    unfold taker_allowed in Hallowed.
    split; [split|]; decide_checks.
Qed.

(** C9: the wildcard taker is the zero address.  For an offer whose taker
    field is the zero address the validation never reports Unauthorized and
    its outcome is the same for every requester address.  Unauthorized is
    only ever reported for a non-zero taker field and a requester that
    differs from it, and for an offer with a non-zero taker field that
    passes the earlier checks (status, parameters, fillable amount,
    signature) the validation reports Unauthorized exactly when the
    requester differs from that taker. *)
Theorem zero_address_taker_is_wildcard
    (divaDomain : DivaDomain) (offer : OfferCreateContingentPool)
    (type : TypedDataTypes) (signature : Signature) (userAddress : address)
    (takerFillAmount makerFill takerBalance makerBalance : Z) (w : World) :
  let state := getOfferRelevantStateCreateContingentPool (token w) offer signature in
  let run (requester : address) :=
    _checkConditions divaDomain offer type signature requester
      takerFillAmount makerFill takerBalance makerBalance in
  (taker offer = AddressZero ->
     outcome (run userAddress) w <> Raised (Thrown Unauthorized)
     /\ forall other : address, outcome (run other) w = outcome (run userAddress) w)
  /\ (outcome (run userAddress) w = Raised (Thrown Unauthorized) ->
      taker offer <> AddressZero /\ userAddress <> taker offer)
  /\ (taker offer <> AddressZero ->
      passes_up_to_signature state (verifyTypedData divaDomain type offer signature)
        offer takerFillAmount ->
      outcome (run userAddress) w = Raised (Thrown Unauthorized)
      <-> userAddress <> taker offer).
Proof.
  intros state run. subst run. cbv beta. split; [|split].
  - intros Hzero. split.
    + rewrite _checkConditions_outcome. decide_checks.
    + intros other. rewrite !_checkConditions_outcome. decide_checks.
  - rewrite _checkConditions_outcome. decide_checks.
  - intros Hreserved (Hstatus & Hvalid & Hfits & Hsig).
    rewrite _checkConditions_outcome. fold state.
    unfold preflight_checks. rewrite Hstatus, Hvalid, Hsig.
    split; decide_checks.
Qed.

(** *** The allowance gate *)

Lemma ensureAllowance_insufficient (owner : address) (required : Z) (w : World) :
  default 0 (allowances (token w) !! (owner, DIVA_ADDRESS)) < required ->
  ensureAllowance owner required w
  = (Returned (required + 1),
     {| token :=
          {| balances := balances (token w);
             allowances :=
               <[(owner, DIVA_ADDRESS) := required + 1]> (allowances (token w)) |};
        sent := sent w ++ [Approve owner DIVA_ADDRESS (required + 1)] |}).
Proof.
  intros Hlow. unfold ensureAllowance, setAllowanceIfInsufficient,
    BigNumber.lt, BigNumber.add.
  run_script. split_guards; [|lia].
  now rewrite lookup_insert_eq.
Qed.

Lemma ensureAllowance_sufficient (owner : address) (required : Z) (w : World) :
  required <= default 0 (allowances (token w) !! (owner, DIVA_ADDRESS)) ->
  ensureAllowance owner required w
  = (Returned (default 0 (allowances (token w) !! (owner, DIVA_ADDRESS))), w).
Proof.
  intros Hhigh. unfold ensureAllowance, setAllowanceIfInsufficient, BigNumber.lt.
  run_script. split_guards; [lia|]. reflexivity.
Qed.

(** C7: the allowance gate approves required + 1 exactly when the current
    allowance is strictly below the required amount, and changes nothing
    when the allowance already suffices; after one call the allowance
    suffices, so a second call in succession changes nothing, and two
    calls in a row send at most one approval. *)
Theorem ensureAllowance_idempotent (owner : address) (required : Z) (w : World) :
  let current := default 0 (allowances (token w) !! (owner, DIVA_ADDRESS)) in
  let once := world_after (ensureAllowance owner required) w in
  let twice :=
    world_after (ensureAllowance owner required ;; ensureAllowance owner required) w in
  (current < required ->
     outcome (ensureAllowance owner required) w = Returned (required + 1)
     /\ sent once = (sent w ++ [Approve owner DIVA_ADDRESS (required + 1)])%list
     /\ default 0 (allowances (token once) !! (owner, DIVA_ADDRESS)) = required + 1)
  /\ (required <= current ->
      outcome (ensureAllowance owner required) w = Returned current
      /\ once = w)
  /\ required <= default 0 (allowances (token once) !! (owner, DIVA_ADDRESS))
  /\ world_after (ensureAllowance owner required) once = once
  /\ twice = once
  /\ exists approvals : list Tx,
       sent twice = (sent w ++ approvals)%list
       /\ (length approvals <= 1)%nat
       /\ (approvals = [] <-> required <= current).
Proof.
  intros current once twice.
  assert (Hsecond : required
                    <= default 0 (allowances (token once) !! (owner, DIVA_ADDRESS))).
  { subst once. unfold world_after.
    destruct (Z.lt_ge_cases current required) as [Hlow|Hhigh].
    - rewrite ensureAllowance_insufficient by exact Hlow. simpl.
      rewrite lookup_insert_eq. simpl. lia.
    - now rewrite ensureAllowance_sufficient by exact Hhigh. }
  assert (Hstable : world_after (ensureAllowance owner required) once = once).
  { unfold world_after at 1. now rewrite ensureAllowance_sufficient by exact Hsecond. }
  assert (Htwice : twice = once).
  { subst twice. unfold world_after at 1, bind.
    fold once in Hstable. unfold world_after in Hstable, once.
    destruct (ensureAllowance owner required w) as [[a|e] w1]; simpl in *;
      [exact Hstable | reflexivity]. }
  split; [|split; [|split; [|split; [|split]]]]; try assumption.
  - intros Hlow. subst once. unfold outcome, world_after.
    rewrite ensureAllowance_insufficient by exact Hlow. simpl.
    now rewrite lookup_insert_eq.
  - intros Hhigh. subst once. unfold outcome, world_after.
    now rewrite ensureAllowance_sufficient by exact Hhigh.
  - rewrite Htwice. subst once. unfold world_after.
    destruct (Z.lt_ge_cases current required) as [Hlow|Hhigh].
    + rewrite ensureAllowance_insufficient by exact Hlow. simpl.
      eexists. split; [reflexivity|]. split; [simpl; lia|].
      split; [discriminate | lia].
    + rewrite ensureAllowance_sufficient by exact Hhigh.
      exists []. split; [now rewrite app_nil_r|]. split; [simpl; lia|].
      split; [intros _; exact Hhigh | reflexivity].
Qed.

(** *** The allowance part of [main] is the allowance gate *)

Lemma setAllowances_two_parties
    (offer : OfferCreateContingentPool) (takerAddress : address)
    (takerFillAmount makerFill : Z) (w : World) :
  takerAddress <> maker offer ->
  world_after
    (allowanceMaker <- allowance (maker offer) DIVA_ADDRESS ;;
     allowanceTaker <- allowance takerAddress DIVA_ADDRESS ;;
     setAllowances offer takerAddress takerFillAmount makerFill
       allowanceMaker allowanceTaker) w
  = world_after
      (ensureAllowance (maker offer) makerFill ;;
       ensureAllowance takerAddress takerFillAmount) w.
Proof.
  intros Hother.
  unfold setAllowances, ensureAllowance, setAllowanceIfInsufficient,
    BigNumber.lt, BigNumber.add.
  destruct (String.eqb_spec takerAddress (maker offer)) as [|_]; [contradiction|].
  run_script.
  destruct (Z.ltb_spec (default 0 (allowances (token w) !! (maker offer, DIVA_ADDRESS)))
              makerFill); simpl.
  - rewrite (lookup_insert_ne _ (maker offer, DIVA_ADDRESS) (takerAddress, DIVA_ADDRESS))
      by (intros Heq; apply Hother; now inversion Heq).
    destruct (Z.ltb_spec (default 0 (allowances (token w) !! (takerAddress, DIVA_ADDRESS)))
                takerFillAmount); reflexivity.
  - destruct (Z.ltb_spec (default 0 (allowances (token w) !! (takerAddress, DIVA_ADDRESS)))
                takerFillAmount); reflexivity.
Qed.

Lemma setAllowances_self_fill
    (offer : OfferCreateContingentPool) (takerAddress : address)
    (takerFillAmount makerFill total : Z) (w : World) :
  takerAddress = maker offer ->
  totalCollateralFillAmount offer takerFillAmount = Some total ->
  world_after
    (allowanceMaker <- allowance (maker offer) DIVA_ADDRESS ;;
     allowanceTaker <- allowance takerAddress DIVA_ADDRESS ;;
     setAllowances offer takerAddress takerFillAmount makerFill
       allowanceMaker allowanceTaker) w
  = world_after (ensureAllowance (maker offer) total) w.
Proof.
  intros Hself Htotal.
  unfold setAllowances, ensureAllowance, setAllowanceIfInsufficient,
    BigNumber.lt, BigNumber.add.
  destruct (String.eqb_spec takerAddress (maker offer)) as [_|]; [|contradiction].
  rewrite Htotal. run_script.
  destruct (Z.ltb_spec (default 0 (allowances (token w) !! (maker offer, DIVA_ADDRESS)))
              total); reflexivity.
Qed.

(** *** [main]: approvals, then validation, then the fill *)

Ltac trace_witness :=
  match goal with
  | |- exists l, ((?s ++ [?a]) ++ [?b])%list = _ /\ _ =>
      exists [a; b]; rewrite <- app_assoc
  | |- exists l, (?s ++ [?a])%list = _ /\ _ => exists [a]
  | |- exists l, ?s = _ /\ _ => exists []; rewrite app_nil_r
  end;
  split; [reflexivity | split; [repeat constructor | simpl; lia]].

(** The preparation sends nothing but approvals, at most two. *)
Lemma prepare_sends_approvals
    (offer : OfferCreateContingentPool) (takerAddress : address)
    (takerFillAmount : Z) (w : World) :
  exists approvals : list Tx,
    sent (world_after (prepare offer takerAddress takerFillAmount) w)
    = (sent w ++ approvals)%list
    /\ Forall is_approve approvals
    /\ (length approvals <= 2)%nat.
Proof.
  unfold prepare, setAllowances, setAllowanceIfInsufficient, BigNumber.lt.
  run_script.
  destruct (makerFillAmount offer takerFillAmount) as [makerFill|]; simpl;
    [|trace_witness].
  destruct (String.eqb takerAddress (maker offer)); simpl.
  - destruct (totalCollateralFillAmount offer takerFillAmount) as [total|]; simpl;
      [|trace_witness].
    destruct (_ <? total); simpl; trace_witness.
  - destruct (_ <? makerFill); simpl;
      destruct (_ <? takerFillAmount); simpl; trace_witness.
Qed.

(** The balances the preparation hands to the validation are those of the
    maker's and the taker's accounts before the approvals; a taker who is
    the maker hands over one account's balance twice. *)
Lemma prepare_balances
    (offer : OfferCreateContingentPool) (takerAddress : address)
    (takerFillAmount makerFill balanceTaker balanceMaker : Z) (w : World) :
  outcome (prepare offer takerAddress takerFillAmount) w
  = Returned (makerFill, balanceTaker, balanceMaker) ->
  makerFillAmount offer takerFillAmount = Some makerFill
  /\ balanceTaker = default 0 (balances (token w) !! takerAddress)
  /\ balanceMaker = default 0 (balances (token w) !! maker offer).
Proof.
  unfold prepare, setAllowances, setAllowanceIfInsufficient, BigNumber.lt.
  run_script.
  destruct (makerFillAmount offer takerFillAmount) as [mk|]; simpl;
    [|discriminate].
  destruct (String.eqb takerAddress (maker offer)); simpl.
  - destruct (totalCollateralFillAmount offer takerFillAmount) as [total|]; simpl;
      [|discriminate].
    destruct (_ <? total); simpl; intros [= <- <- <-]; auto.
  - destruct (_ <? mk); simpl;
      destruct (_ <? takerFillAmount); simpl; intros [= <- <- <-]; auto.
Qed.

(** C8 as the script has it: [main] first prepares, which sends the
    allowance approvals (and only approvals), then validates on the chain
    the approvals left, and submits the fill only when all checks of the
    validation have passed; a failed validation leaves the approvals sent
    and no fill. *)
Theorem fill_submitted_only_after_validation
    (response : OfferResponse) (takerAddress : address)
    (takerFillAmount : Z) (w : World) :
  let offer := api_offer response in
  let divaDomain :=
    {| name := "DIVA Protocol"; version := "1";
       chainId := api_chainId response;
       verifyingContract := api_verifyingContract response |} in
  let prepared := world_after (prepare offer takerAddress takerFillAmount) w in
  (exists approvals : list Tx,
     sent prepared = (sent w ++ approvals)%list
     /\ Forall is_approve approvals
     /\ (length approvals <= 2)%nat)
  /\ (forall e : Exn,
        outcome (prepare offer takerAddress takerFillAmount) w = Raised e ->
        main response takerAddress takerFillAmount w = (Raised e, prepared))
  /\ (forall makerFill balanceTaker balanceMaker : Z,
        outcome (prepare offer takerAddress takerFillAmount) w
        = Returned (makerFill, balanceTaker, balanceMaker) ->
        let validation :=
          _checkConditions divaDomain offer CREATE_POOL_TYPE
            (api_signature response) takerAddress takerFillAmount makerFill
            balanceTaker balanceMaker in
        world_after validation prepared = prepared
        /\ (forall e : Exn,
              outcome validation prepared = Raised e ->
              main response takerAddress takerFillAmount w = (Raised e, prepared))
        /\ (outcome validation prepared = Returned tt ->
            main response takerAddress takerFillAmount w
            = (Returned tt,
               {| token := token prepared;
                  sent := sent prepared
                          ++ [FillOfferCreateContingentPool takerAddress offer
                                (api_signature response) takerFillAmount] |}))).
Proof.
  intros offer divaDomain prepared.
  split; [apply prepare_sends_approvals|].
  subst prepared. unfold main, outcome, world_after, bind. fold offer divaDomain.
  destruct (prepare offer takerAddress takerFillAmount w) as [[[[mk bt] bm]|e0] w1];
    simpl; split; try discriminate.
  - intros makerFill balanceTaker balanceMaker [= -> -> ->].
    rewrite _checkConditions_run. simpl.
    split; [reflexivity|]. split.
    + intros e He. now rewrite He.
    + intros Hok. now rewrite Hok.
  - now intros e [= ->].
Qed.

(** In a self-fill the validation compares the one balance with each leg
    on its own. *)
Lemma self_fill_checks_each_leg
    (divaDomain : DivaDomain) (offer : OfferCreateContingentPool)
    (type : TypedDataTypes) (signature : Signature)
    (takerFillAmount makerFill balance : Z) (w : World) :
  let state := getOfferRelevantStateCreateContingentPool (token w) offer signature in
  passes_up_to_signature state (verifyTypedData divaDomain type offer signature)
    offer takerFillAmount ->
  taker_allowed offer (maker offer) ->
  ~ (takerFilledAmount (offerInfo state) = 0
     /\ takerFillAmount < minimumTakerFillAmount offer) ->
  takerFillAmount <= balance ->
  makerFill <= balance ->
  outcome
    (_checkConditions divaDomain offer type signature (maker offer)
       takerFillAmount makerFill balance balance) w
  = Returned tt.
Proof.
  intros state (Hstatus & Hvalid & Hfits & Hsig) Hallowed Hminimum Htaker Hmaker.
  rewrite _checkConditions_outcome. fold state.
  unfold preflight_checks. rewrite Hstatus, Hvalid, Hsig.
  unfold taker_allowed in Hallowed. decide_checks.
Qed.

(** *** What an accepted validation guarantees *)

(** A list of checks passes exactly when none of its checks fails. *)
Lemma first_failure_passes (checks : list (bool * Exn)) :
  first_failure checks = Returned tt
  <-> Forall (fun check => fst check = false) checks.
Proof.
  clear. induction checks as [|[fails e] rest IH]; simpl.
  - split; [constructor | reflexivity].
  - destruct fails; split.
    + discriminate.
    + intros Hall. inversion Hall as [|? ? Hhead _]. discriminate Hhead.
    + intros Hrest. constructor; [reflexivity | now apply IH].
    + intros Hall. inversion Hall. now apply IH.
Qed.

(** X1: [_checkConditions] returns without throwing exactly when the offer
    is fillable, its parameters are valid, the request fits the fillable
    amount, the signature recovers to the maker, the requester is allowed,
    the first-fill minimum is met and both balances cover their leg; and,
    whatever its outcome, it leaves the chain as it found it. *)
Theorem checkConditions_accepts_iff
    (divaDomain : DivaDomain) (offer : OfferCreateContingentPool)
    (type : TypedDataTypes) (signature : Signature) (userAddress : address)
    (takerFillAmount makerFill takerBalance makerBalance : Z) (w : World) :
  let state := getOfferRelevantStateCreateContingentPool (token w) offer signature in
  let run :=
    _checkConditions divaDomain offer type signature userAddress
      takerFillAmount makerFill takerBalance makerBalance in
  world_after run w = w
  /\ (outcome run w = Returned tt
      <-> status (offerInfo state) = Fillable
          /\ isValidInputParamsCreateContingentPool state = true
          /\ takerFillAmount <= actualTakerFillableAmount state
          /\ verifyTypedData divaDomain type offer signature = Some (maker offer)
          /\ (taker offer = AddressZero \/ userAddress = taker offer)
          /\ (takerFilledAmount (offerInfo state) = 0 ->
              minimumTakerFillAmount offer <= takerFillAmount)
          /\ takerFillAmount <= takerBalance
          /\ makerFill <= makerBalance).
Proof.
  intros state run. subst run. split.
  - unfold world_after. now rewrite _checkConditions_run.
  - rewrite _checkConditions_outcome, first_failure_passes. fold state.
    unfold preflight_checks. rewrite !Forall_cons, Forall_nil. simpl.
    rewrite !bool_decide_eq_false.
    destruct (status (offerInfo state));
      destruct (isValidInputParamsCreateContingentPool state);
      destruct (decide (verifyTypedData divaDomain type offer signature
                        = Some (maker offer))) as [Hsig|Hsig];
      try rewrite Hsig;
      destruct (decide (taker offer = AddressZero));
      destruct (decide (userAddress = taker offer));
      destruct (decide (takerFilledAmount (offerInfo state) = 0));
      try (split; intros; intuition (try congruence; try lia); fail).
Qed.

(** X2: an offer that is not fillable is rejected with the reason of its
    status, whatever the request, the signature, the requester and the
    balances are. *)
Theorem status_is_reported_first
    (divaDomain : DivaDomain) (offer : OfferCreateContingentPool)
    (type : TypedDataTypes) (signature : Signature) (userAddress : address)
    (takerFillAmount makerFill takerBalance makerBalance : Z) (w : World) :
  let state := getOfferRelevantStateCreateContingentPool (token w) offer signature in
  let run :=
    _checkConditions divaDomain offer type signature userAddress
      takerFillAmount makerFill takerBalance makerBalance in
  status (offerInfo state) <> Fillable ->
  outcome run w
  = Raised (Thrown match status (offerInfo state) with
                   | Invalid => StatusInvalid
                   | Cancelled => StatusCancelled
                   | Filled => StatusFilled
                   | Expired | Fillable => StatusExpired
                   end).
Proof.
  intros state run Hstatus. subst run.
  rewrite _checkConditions_outcome. fold state. unfold preflight_checks.
  destruct (status (offerInfo state)); try reflexivity. contradiction.
Qed.

(** *** What the preparation leaves behind *)

Ltac run_prepare :=
  unfold prepare, setAllowances, setAllowanceIfInsufficient,
    BigNumber.lt, BigNumber.add;
  run_script.

(** When the preparation returns, the allowances granted to the
    settlement contract cover what the fill will pull: with two parties the
    maker's allowance covers the maker fill amount and the taker's covers
    the taker fill amount; when the taker is the maker, the one allowance
    covers the combined amount. *)
Lemma prepare_covers_the_fill
    (offer : OfferCreateContingentPool) (takerAddress : address)
    (takerFillAmount makerFill balanceTaker balanceMaker : Z) (w : World) :
  outcome (prepare offer takerAddress takerFillAmount) w
  = Returned (makerFill, balanceTaker, balanceMaker) ->
  let prepared := world_after (prepare offer takerAddress takerFillAmount) w in
  (takerAddress <> maker offer ->
     makerFill
     <= default 0 (allowances (token prepared) !! (maker offer, DIVA_ADDRESS))
     /\ takerFillAmount
        <= default 0 (allowances (token prepared) !! (takerAddress, DIVA_ADDRESS)))
  /\ (takerAddress = maker offer ->
      exists total : Z,
        totalCollateralFillAmount offer takerFillAmount = Some total
        /\ total
           <= default 0 (allowances (token prepared) !! (maker offer, DIVA_ADDRESS))).
Proof.
  run_prepare.
  destruct (makerFillAmount offer takerFillAmount) as [mk|]; simpl; [|discriminate].
  destruct (String.eqb_spec takerAddress (maker offer)) as [Hself|Hother]; simpl.
  - destruct (totalCollateralFillAmount offer takerFillAmount) as [total|]; simpl;
      [|discriminate].
    destruct (Z.ltb_spec
                (default 0 (allowances (token w) !! (maker offer, DIVA_ADDRESS)))
                total); simpl;
      intros _; (split; [contradiction|]); intros _; exists total;
      (split; [reflexivity|]); rewrite ?lookup_insert_eq; simpl; lia.
  - assert (Hne : (maker offer, DIVA_ADDRESS) <> (takerAddress, DIVA_ADDRESS))
      by (intros [= Heq]; now apply Hother).
    destruct (Z.ltb_spec
                (default 0 (allowances (token w) !! (maker offer, DIVA_ADDRESS)))
                mk); simpl;
      destruct (Z.ltb_spec
                  (default 0 (allowances (token w) !! (takerAddress, DIVA_ADDRESS)))
                  takerFillAmount); simpl;
      intros [= <- ? ?]; (split; [|contradiction]); intros _;
      rewrite ?lookup_insert_eq, ?(lookup_insert_ne _ _ _ _ Hne),
        ?(lookup_insert_ne _ _ _ _ (not_eq_sym Hne)), ?lookup_insert_eq;
      simpl; lia.
Qed.

Ltac read_allowances :=
  rewrite ?lookup_insert; repeat case_decide; simplify_eq; simpl.

(** X4: the preparation never moves a token and never lowers an
    allowance; the only allowances it can change are those the maker and
    the taker grant to the settlement contract. *)
Theorem prepare_only_raises_allowances
    (offer : OfferCreateContingentPool) (takerAddress : address)
    (takerFillAmount : Z) (w : World) :
  let prepared := world_after (prepare offer takerAddress takerFillAmount) w in
  balances (token prepared) = balances (token w)
  /\ (forall owner spender : address,
        default 0 (allowances (token w) !! (owner, spender))
        <= default 0 (allowances (token prepared) !! (owner, spender)))
  /\ (forall owner spender : address,
        spender <> DIVA_ADDRESS \/ (owner <> maker offer /\ owner <> takerAddress) ->
        allowances (token prepared) !! (owner, spender)
        = allowances (token w) !! (owner, spender)).
Proof.
  run_prepare.
  destruct (makerFillAmount offer takerFillAmount) as [mk|]; simpl;
    [|repeat split; intros; reflexivity || lia].
  destruct (String.eqb_spec takerAddress (maker offer)) as [Hself|Hother]; simpl.
  - destruct (totalCollateralFillAmount offer takerFillAmount) as [total|]; simpl;
      [|repeat split; intros; reflexivity || lia].
    destruct (Z.ltb_spec
                (default 0 (allowances (token w) !! (maker offer, DIVA_ADDRESS)))
                total); simpl;
      (split; [reflexivity|split; [intros owner spender|intros owner spender Hfar]]);
      read_allowances; try reflexivity; try lia; intuition congruence.
  - destruct (Z.ltb_spec
                (default 0 (allowances (token w) !! (maker offer, DIVA_ADDRESS)))
                mk); simpl;
      destruct (Z.ltb_spec
                  (default 0 (allowances (token w) !! (takerAddress, DIVA_ADDRESS)))
                  takerFillAmount); simpl;
      (split; [reflexivity|split; [intros owner spender|intros owner spender Hfar]]);
      read_allowances; try reflexivity; try lia; intuition congruence.
Qed.

(** X5: preparing twice in a row is preparing once: after a first
    preparation a second one finds both allowances sufficient and sends no
    further approval. *)
Theorem prepare_idempotent
    (offer : OfferCreateContingentPool) (takerAddress : address)
    (takerFillAmount : Z) (w : World) :
  let prepared := world_after (prepare offer takerAddress takerFillAmount) w in
  world_after (prepare offer takerAddress takerFillAmount) prepared = prepared.
Proof.
  run_prepare.
  destruct (makerFillAmount offer takerFillAmount) as [mk|] eqn:Hmk; simpl;
    [|reflexivity].
  destruct (String.eqb_spec takerAddress (maker offer)) as [Hself|Hother]; simpl.
  - destruct (totalCollateralFillAmount offer takerFillAmount) as [total|] eqn:Ht;
      simpl; [|reflexivity].
    destruct (Z.ltb_spec
                (default 0 (allowances (token w) !! (maker offer, DIVA_ADDRESS)))
                total) as [Hlow|Hhigh]; simpl.
    + rewrite lookup_insert_eq. simpl.
      destruct (Z.ltb_spec (total + 1) total); [lia|reflexivity].
    + destruct (Z.ltb_spec
                  (default 0 (allowances (token w) !! (maker offer, DIVA_ADDRESS)))
                  total); [lia|reflexivity].
  - assert (Hne : (maker offer, DIVA_ADDRESS) <> (takerAddress, DIVA_ADDRESS))
      by (intros [= Heq]; now apply Hother).
    destruct (Z.ltb_spec
                (default 0 (allowances (token w) !! (maker offer, DIVA_ADDRESS)))
                mk) as [Hlow|Hhigh]; simpl;
      destruct (Z.ltb_spec
                  (default 0 (allowances (token w) !! (takerAddress, DIVA_ADDRESS)))
                  takerFillAmount) as [Hlow'|Hhigh']; simpl;
      rewrite ?lookup_insert_eq, ?(lookup_insert_ne _ _ _ _ Hne),
        ?(lookup_insert_ne _ _ _ _ (not_eq_sym Hne)), ?lookup_insert_eq; simpl;
      repeat match goal with
        | |- context [Z.ltb ?a ?b] => destruct (Z.ltb_spec a b); simpl; try lia
        end;
      reflexivity.
Qed.

(** [main] as three steps: the preparation, the validation on the chain
    the preparation left, the submission. *)
Lemma main_run
    (response : OfferResponse) (takerAddress : address)
    (takerFillAmount : Z) (w : World) :
  let offer := api_offer response in
  main response takerAddress takerFillAmount w
  = match prepare offer takerAddress takerFillAmount w with
    | (Raised e, prepared) => (Raised e, prepared)
    | (Returned (makerFill, balanceTaker, balanceMaker), prepared) =>
        match
          first_failure
            (preflight_checks
               (getOfferRelevantStateCreateContingentPool (token prepared) offer
                  (api_signature response))
               (verifyTypedData
                  {| name := "DIVA Protocol"; version := "1";
                     chainId := api_chainId response;
                     verifyingContract := api_verifyingContract response |}
                  CREATE_POOL_TYPE offer (api_signature response))
               offer takerAddress takerFillAmount makerFill
               balanceTaker balanceMaker)
        with
        | Raised e => (Raised e, prepared)
        | Returned _ =>
            (Returned tt,
             {| token := token prepared;
                sent := sent prepared
                        ++ [FillOfferCreateContingentPool takerAddress offer
                              (api_signature response) takerFillAmount] |})
        end
    end.
Proof.
  intros offer. unfold main, bind. fold offer.
  destruct (prepare offer takerAddress takerFillAmount w)
    as [[[[mk bt] bm]|e] prepared]; [|reflexivity].
  rewrite _checkConditions_run.
  destruct (first_failure _); reflexivity.
Qed.

(** The preparation throws only on the division, and only when the
    offer's taker amount is zero; it then leaves the chain untouched. *)
Lemma prepare_throws
    (offer : OfferCreateContingentPool) (takerAddress : address)
    (takerFillAmount : Z) (w : World) (e : Exn) :
  outcome (prepare offer takerAddress takerFillAmount) w = Raised e ->
  e = DivisionByZero
  /\ takerCollateralAmount offer = 0
  /\ world_after (prepare offer takerAddress takerFillAmount) w = w.
Proof.
  unfold prepare, setAllowances, setAllowanceIfInsufficient,
    makerFillAmount, totalCollateralFillAmount, BigNumber.div.
  run_script.
  destruct (Z.eqb_spec (takerCollateralAmount offer) 0) as [Hzero|_]; simpl.
  - intros [= <-]. auto.
  - destruct (String.eqb _ _); simpl;
      repeat match goal with
        | |- context [if ?b then _ else _] => destruct b; simpl
        end; discriminate.
Qed.

(** The validation never reports a division fault. *)
Lemma first_failure_not_division
    (state : RelevantStateParams) (recovered : option address)
    (offer : OfferCreateContingentPool) (requester : address)
    (requested computedMaker takerBalance makerBalance : Z) :
  first_failure
    (preflight_checks state recovered offer requester requested computedMaker
       takerBalance makerBalance)
  <> Raised DivisionByZero.
Proof.
  clear. unfold preflight_checks. simpl.
  repeat case_bool_decide; simpl; discriminate.
Qed.

(** X6: [main] throws the division fault exactly when the offer's taker
    amount is zero, and it then stops before anything is read from the
    settlement contract or sent: the chain is left as it was, and the
    status message for such an offer is never reached. *)
Theorem main_zero_taker_amount
    (response : OfferResponse) (takerAddress : address)
    (takerFillAmount : Z) (w : World) :
  (outcome (main response takerAddress takerFillAmount) w = Raised DivisionByZero
   <-> takerCollateralAmount (api_offer response) = 0)
  /\ (takerCollateralAmount (api_offer response) = 0 ->
      world_after (main response takerAddress takerFillAmount) w = w).
Proof.
  assert (Hzero : takerCollateralAmount (api_offer response) = 0 ->
                  main response takerAddress takerFillAmount w
                  = (Raised DivisionByZero, w)).
  { intros Hzero. unfold main, prepare, makerFillAmount, BigNumber.div.
    now rewrite Hzero. }
  split; [split|].
  - unfold outcome. rewrite main_run. cbv zeta.
    destruct (prepare (api_offer response) takerAddress takerFillAmount w)
      as [[[[mk bt] bm]|e] prepared] eqn:Hprepare; cbv beta iota.
    + match goal with
      | |- context [first_failure ?checks] =>
          destruct (first_failure checks) eqn:Hcheck
      end; simpl; [discriminate|].
      intros [= ->]. now apply first_failure_not_division in Hcheck.
    + simpl. intros [= ->].
      apply (prepare_throws (api_offer response) takerAddress takerFillAmount w
               DivisionByZero).
      unfold outcome. now rewrite Hprepare.
  - intros H. unfold outcome. now rewrite Hzero.
  - intros H. unfold world_after. now rewrite Hzero.
Qed.

Lemma prepare_keeps_balances
    (offer : OfferCreateContingentPool) (takerAddress : address)
    (takerFillAmount : Z) (w : World) :
  balances (token (world_after (prepare offer takerAddress takerFillAmount) w))
  = balances (token w).
Proof.
  run_prepare.
  destruct (makerFillAmount offer takerFillAmount); simpl; [|reflexivity].
  destruct (String.eqb _ _); simpl.
  - destruct (totalCollateralFillAmount offer takerFillAmount); simpl; [|reflexivity].
    destruct (_ <? _); reflexivity.
  - destruct (_ <? _); simpl; destruct (_ <? _); reflexivity.
Qed.

(** X7: a run of [main] that returns has submitted exactly one fill, as
    its last transaction and after nothing but approvals; no token was
    moved by the script, the balances read at the start cover the taker and
    the maker fill amounts, the settlement contract reported the offer
    fillable for at least the requested amount on the chain the fill is
    submitted to, and on that chain the allowances cover the fill: each
    party's own leg with two parties, the combined amount when the taker is
    the maker. *)
Theorem main_success_guarantees
    (response : OfferResponse) (takerAddress : address)
    (takerFillAmount : Z) (w : World) :
  let offer := api_offer response in
  let final := world_after (main response takerAddress takerFillAmount) w in
  let state :=
    getOfferRelevantStateCreateContingentPool (token final) offer
      (api_signature response) in
  outcome (main response takerAddress takerFillAmount) w = Returned tt ->
  exists (makerFill : Z) (approvals : list Tx),
    makerFillAmount offer takerFillAmount = Some makerFill
    /\ sent final
       = (sent w ++ approvals
          ++ [FillOfferCreateContingentPool takerAddress offer
                (api_signature response) takerFillAmount])%list
    /\ Forall is_approve approvals
    /\ balances (token final) = balances (token w)
    /\ takerFillAmount <= default 0 (balances (token w) !! takerAddress)
    /\ makerFill <= default 0 (balances (token w) !! maker offer)
    /\ status (offerInfo state) = Fillable
    /\ takerFillAmount <= actualTakerFillableAmount state
    /\ (takerAddress <> maker offer ->
        makerFill
        <= default 0 (allowances (token final) !! (maker offer, DIVA_ADDRESS))
        /\ takerFillAmount
           <= default 0 (allowances (token final) !! (takerAddress, DIVA_ADDRESS)))
    /\ (takerAddress = maker offer ->
        exists total : Z,
          totalCollateralFillAmount offer takerFillAmount = Some total
          /\ total
             <= default 0 (allowances (token final) !! (maker offer, DIVA_ADDRESS))).
Proof.
  intros offer final state. subst final state.
  unfold outcome, world_after. rewrite main_run. cbv zeta. fold offer.
  pose proof (prepare_sends_approvals offer takerAddress takerFillAmount w)
    as (approvals & Hsent & Happrovals & _).
  pose proof (prepare_keeps_balances offer takerAddress takerFillAmount w) as Hbalances.
  pose proof (fun mk bt bm =>
                prepare_balances offer takerAddress takerFillAmount mk bt bm w)
    as Hread.
  pose proof (fun mk bt bm =>
                prepare_covers_the_fill offer takerAddress takerFillAmount mk bt bm w)
    as Hcovers.
  unfold outcome, world_after in Hsent, Hbalances, Hread, Hcovers.
  destruct (prepare offer takerAddress takerFillAmount w)
    as [[[[mk bt] bm]|e] prepared]; cbv beta iota; [|discriminate].
  match goal with
  | |- context [first_failure ?checks] =>
      destruct (first_failure checks) as [[]|e] eqn:Hcheck
  end; [|discriminate].
  apply first_failure_passes in Hcheck.
  intros _. cbn [fst snd token sent] in *.
  destruct (Hread mk bt bm eq_refl) as (Hmk & -> & ->).
  unfold preflight_checks in Hcheck.
  rewrite !Forall_cons in Hcheck. simpl in Hcheck.
  rewrite !bool_decide_eq_false in Hcheck.
  destruct Hcheck as (Hi & Hc & Hf & He & _ & Hfits & _ & _ & _ & _ & Htaker & Hmaker & _).
  exists mk, approvals. rewrite Hsent, <- app_assoc.
  repeat split; try assumption; try lia.
  - destruct (status _); congruence.
  - now apply (Hcovers mk _ _ eq_refl).
  - now apply (Hcovers mk _ _ eq_refl).
  - now apply (Hcovers mk _ _ eq_refl).
Qed.

End FillOffer.

(** ** The proportional amounts *)

(** On unsigned operands [BigNumber.div] is the floor of the quotient. *)
Lemma div_unsigned (a b : Z) :
  0 <= a -> 0 < b -> BigNumber.div a b = Some (a / b).
Proof.
  intros Ha Hb. unfold BigNumber.div.
  destruct (Z.eqb_spec b 0) as [->|_]; [lia|].
  now rewrite Z.quot_div_nonneg by lia.
Qed.

Lemma div_zero (a : Z) : BigNumber.div a 0 = None.
Proof. reflexivity. Qed.

(** The maker fill amount of an unsigned request against an offer with a
    positive taker amount. *)
Lemma makerFillAmount_unsigned (offer : OfferCreateContingentPool) (requested : Z) :
  0 <= makerCollateralAmount offer ->
  0 <= requested ->
  0 < takerCollateralAmount offer ->
  makerFillAmount offer requested
  = Some (makerCollateralAmount offer * requested / takerCollateralAmount offer).
Proof.
  intros Hm Hr Ht. unfold makerFillAmount, BigNumber.mul.
  apply div_unsigned; nia.
Qed.

(** The floor of a quotient, by its two bounds. *)
Lemma floor_bounds (a b : Z) :
  0 < b -> b * (a / b) <= a < b * (a / b + 1).
Proof.
  intros Hb.
  pose proof (Z.mul_div_le a b Hb).
  pose proof (Z.mul_succ_div_gt a b Hb).
  lia.
Qed.

(** C1: for an offer with a positive taker amount and unsigned amounts, the
    maker fill amount is floor(makerAmount * requestedTakerAmount /
    takerAmount): the script returns that quotient [q], and [q] is the
    integer with takerAmount * q <= makerAmount * requested <
    takerAmount * (q + 1). *)
Theorem makerFillAmount_floor (offer : OfferCreateContingentPool) (requested : Z) :
  0 <= makerCollateralAmount offer ->
  0 <= requested ->
  0 < takerCollateralAmount offer ->
  let q := makerCollateralAmount offer * requested / takerCollateralAmount offer in
  makerFillAmount offer requested = Some q
  /\ takerCollateralAmount offer * q <= makerCollateralAmount offer * requested
     < takerCollateralAmount offer * (q + 1).
Proof.
  intros Hm Hr Ht q. split.
  - now apply makerFillAmount_unsigned.
  - subst q. now apply floor_bounds.
Qed.

Lemma makerFillAmount_floor_witness :
  makerFillAmount sample_offer 7 = Some 14
  /\ 50 * 14 <= 100 * 7 < 50 * (14 + 1).
Proof.
  apply (makerFillAmount_floor sample_offer 7); simpl; lia.
Defined.

(** C4: with positive maker and taker amounts and a request between 0 and
    the taker amount, the maker fill amount is the offer's whole maker
    amount exactly when the request is the whole taker amount. *)
Theorem makerFillAmount_full_iff (offer : OfferCreateContingentPool) (requested : Z) :
  0 < makerCollateralAmount offer ->
  0 < takerCollateralAmount offer ->
  0 <= requested <= takerCollateralAmount offer ->
  makerFillAmount offer requested = Some (makerCollateralAmount offer)
  <-> requested = takerCollateralAmount offer.
Proof.
  intros Hm Ht Hr.
  rewrite makerFillAmount_unsigned by lia.
  pose proof (floor_bounds (makerCollateralAmount offer * requested) _ Ht) as Hbound.
  split.
  - intros [= Heq]. rewrite Heq in Hbound. nia.
  - intros ->. f_equal. apply Z.div_mul. lia.
Qed.

Lemma makerFillAmount_full_iff_witness :
  makerFillAmount sample_offer 50 = Some 100 <-> 50 = 50.
Proof.
  apply (makerFillAmount_full_iff sample_offer 50); simpl; lia.
Defined.

(** C5: for an offer with a positive taker amount and unsigned amounts, the
    combined self-fill amount floor((makerAmount + takerAmount) * requested /
    takerAmount) is the sum of the two legs computed on their own,
    floor(makerAmount * requested / takerAmount) + floor(takerAmount *
    requested / takerAmount); the second leg is the requested amount itself,
    so the combined amount is the script's maker fill amount plus the taker
    fill amount. *)
Theorem totalCollateralFillAmount_sum_of_legs
    (offer : OfferCreateContingentPool) (requested : Z) :
  0 <= makerCollateralAmount offer ->
  0 <= requested ->
  0 < takerCollateralAmount offer ->
  totalCollateralFillAmount offer requested
  = Some (makerCollateralAmount offer * requested / takerCollateralAmount offer
          + takerCollateralAmount offer * requested / takerCollateralAmount offer)
  /\ exists makerFill,
       makerFillAmount offer requested = Some makerFill
       /\ totalCollateralFillAmount offer requested = Some (makerFill + requested).
Proof.
  intros Hm Hr Ht.
  assert (Hleg : takerCollateralAmount offer * requested / takerCollateralAmount offer
                 = requested).
  { rewrite Z.mul_comm. apply Z.div_mul. lia. }
  assert (Htotal : totalCollateralFillAmount offer requested
                   = Some (makerCollateralAmount offer * requested
                           / takerCollateralAmount offer + requested)).
  { unfold totalCollateralFillAmount, BigNumber.mul, BigNumber.add.
    rewrite div_unsigned by nia. f_equal.
    rewrite Z.mul_add_distr_r, (Z.mul_comm (takerCollateralAmount offer) requested).
    apply Z.div_add. lia. }
  split.
  - now rewrite Hleg.
  - eexists. split; [|exact Htotal].
    now apply makerFillAmount_unsigned.
Qed.

Lemma totalCollateralFillAmount_sum_of_legs_witness :
  totalCollateralFillAmount sample_offer 7 = Some (100 * 7 / 50 + 50 * 7 / 50)
  /\ exists makerFill,
       makerFillAmount sample_offer 7 = Some makerFill
       /\ totalCollateralFillAmount sample_offer 7 = Some (makerFill + 7).
Proof.
  apply (totalCollateralFillAmount_sum_of_legs sample_offer 7); simpl; lia.
Defined.

(** C6: for an offer with a positive taker amount and unsigned amounts, the
    maker fill amount does not decrease when the requested taker amount
    grows. *)
Theorem makerFillAmount_monotone (offer : OfferCreateContingentPool) (a b : Z) :
  0 <= makerCollateralAmount offer ->
  0 < takerCollateralAmount offer ->
  0 <= a -> a <= b ->
  exists qa qb,
    makerFillAmount offer a = Some qa
    /\ makerFillAmount offer b = Some qb
    /\ qa <= qb.
Proof.
  intros Hm Ht Ha Hab.
  eexists _, _.
  repeat split; [apply makerFillAmount_unsigned; lia .. |].
  apply Z.div_le_mono; nia.
Qed.

Lemma makerFillAmount_monotone_witness :
  exists qa qb,
    makerFillAmount sample_offer 7 = Some qa
    /\ makerFillAmount sample_offer 8 = Some qb
    /\ qa <= qb.
Proof.
  apply (makerFillAmount_monotone sample_offer 7 8); simpl; lia.
Defined.

(** ** The validation on the sample offer *)

Lemma checkConditions_order_witness :
  let run :=
    _checkConditions recovers_maker (state_view Expired 0) sample_domain
      sample_offer sample_type sample_signature bob 50 100 0 1000 in
  let w := fresh_world [alice; bob] 0 in
  outcome run w = Raised (Thrown StatusExpired)
  /\ outcome run w <> Raised (Thrown InsufficientTakerBalance).
Proof.
  apply (proj2 (checkConditions_order recovers_maker (state_view Expired 0)
                  sample_domain sample_offer sample_type sample_signature
                  bob 50 100 0 1000 (fresh_world [alice; bob] 0))).
  - reflexivity.
  - lia.
Defined.

Lemma minimum_applies_to_first_fill_only_witness :
  let run :=
    _checkConditions recovers_maker (state_view Fillable 20) sample_domain
      sample_offer sample_type sample_signature bob 5 10 1000 1000 in
  let w := fresh_world [alice; bob] 1000 in
  (outcome run w = Raised (Thrown BelowMinimum) <-> 20 = 0 /\ 5 < 10)
  /\ (20 <> 0 -> 5 <= 1000 -> 10 <= 1000 -> outcome run w = Returned tt).
Proof.
  apply (proj2 (minimum_applies_to_first_fill_only recovers_maker
                  (state_view Fillable 20) sample_domain sample_offer sample_type
                  sample_signature bob 5 10 1000 1000
                  (fresh_world [alice; bob] 1000))).
  - repeat split; simpl; lia.
  - left. reflexivity.
Defined.

Lemma zero_address_taker_is_wildcard_witness :
  let run (requester : address) :=
    _checkConditions recovers_maker (state_view Fillable 0) sample_domain
      reserved_offer sample_type sample_signature requester 50 100 1000 1000 in
  let w := fresh_world [alice; bob; carol] 1000 in
  outcome (run carol) w = Raised (Thrown Unauthorized) <-> carol <> bob.
Proof.
  apply (proj2 (proj2 (zero_address_taker_is_wildcard recovers_maker
                  (state_view Fillable 0) sample_domain reserved_offer sample_type
                  sample_signature carol 50 100 1000 1000
                  (fresh_world [alice; bob; carol] 1000)))).
  - discriminate.
  - repeat split; simpl; lia.
Defined.

(** The concrete scenarios of the specification: a full first fill passes, a
    first fill below the minimum is rejected, the same request passes once
    something was filled, a cancelled offer is rejected as such, and a
    signature of somebody else is rejected before the balances are looked
    at. *)
Example scenario_A :
  makerFillAmount sample_offer 50 = Some 100
  /\ outcome
       (_checkConditions recovers_maker (state_view Fillable 0) sample_domain
          sample_offer sample_type sample_signature bob 50 100 1000 1000)
       (fresh_world [alice; bob] 1000)
     = Returned tt.
Proof. split; reflexivity. Qed.

Example scenario_B :
  outcome
    (_checkConditions recovers_maker (state_view Fillable 0) sample_domain
       sample_offer sample_type sample_signature bob 5 10 1000 1000)
    (fresh_world [alice; bob] 1000)
  = Raised (Thrown BelowMinimum).
Proof. reflexivity. Qed.

Example scenario_C :
  outcome
    (_checkConditions recovers_maker (state_view Fillable 20) sample_domain
       sample_offer sample_type sample_signature bob 5 10 1000 1000)
    (fresh_world [alice; bob] 1000)
  = Returned tt.
Proof. reflexivity. Qed.

Example scenario_D :
  outcome
    (_checkConditions recovers_maker (state_view Cancelled 0) sample_domain
       sample_offer sample_type sample_signature bob 50 100 1000 1000)
    (fresh_world [alice; bob] 1000)
  = Raised (Thrown StatusCancelled).
Proof. reflexivity. Qed.

(** An offer whose taker amount is zero makes the script throw on the
    division, before anything is read or sent. *)
Example zero_taker_amount_throws :
  let offer :=
    {| maker := alice; taker := AddressZero;
       makerCollateralAmount := 100; takerCollateralAmount := 0;
       minimumTakerFillAmount := 0; offerExpiry := 1700000000;
       salt := "1667548800000" |} in
  main diva_address sample_type recovers_maker (state_view Invalid 0)
    (sample_response offer) bob 50 (fresh_world [alice; bob] 1000)
  = (Raised DivisionByZero, fresh_world [alice; bob] 1000).
Proof. reflexivity. Qed.

Example scenario_E :
  outcome
    (_checkConditions (fun _ _ _ _ => Some carol) (state_view Fillable 0)
       sample_domain sample_offer sample_type sample_signature bob 50 100 0 0)
    (fresh_world [alice; bob] 0)
  = Raised (Thrown InvalidSignature).
Proof. reflexivity. Qed.

(** ** The allowance gate and the order of [main] on the sample offer *)

Lemma ensureAllowance_idempotent_witness :
  let w := fresh_world [alice; bob] 1000 in
  let once := world_after (ensureAllowance diva_address alice 100) w in
  outcome (ensureAllowance diva_address alice 100) w = Returned 101
  /\ sent once = [Approve alice diva_address 101]
  /\ default 0 (allowances (token once) !! (alice, diva_address)) = 101.
Proof.
  apply (proj1 (ensureAllowance_idempotent diva_address alice 100
                  (fresh_world [alice; bob] 1000))).
  vm_compute. reflexivity.
Defined.

(** Approvals are sent before the validation has succeeded: on an expired
    offer with no allowance set, the run ends with StatusExpired, and both
    approvals were sent all the same. *)
Lemma approvals_sent_though_validation_fails :
  let run :=
    main diva_address sample_type recovers_maker (state_view Expired 0)
      (sample_response sample_offer) bob 50 in
  let w := fresh_world [alice; bob] 1000 in
  outcome run w = Raised (Thrown StatusExpired)
  /\ sent w = []
  /\ sent (world_after run w)
     = [Approve alice diva_address 101; Approve bob diva_address 51].
Proof. vm_compute. repeat split; reflexivity. Qed.

Lemma fill_submitted_only_after_validation_witness :
  let w := fresh_world [alice; bob] 1000 in
  let prepared := world_after (prepare diva_address sample_offer bob 50) w in
  main diva_address sample_type recovers_maker (state_view Fillable 0)
    (sample_response sample_offer) bob 50 w
  = (Returned tt,
     {| token := token prepared;
        sent := sent prepared
                ++ [FillOfferCreateContingentPool bob sample_offer
                      sample_signature 50] |}).
Proof.
  apply (proj2 (proj2 (proj2
           (fill_submitted_only_after_validation diva_address sample_type
              recovers_maker (state_view Fillable 0)
              (sample_response sample_offer) bob 50
              (fresh_world [alice; bob] 1000)))
           100 1000 1000 ltac:(vm_compute; reflexivity))).
  vm_compute. reflexivity.
Defined.

(** C10: when the requester is the maker, the validation is handed the one
    account's balance for both balance checks and compares it with the
    requested taker amount and with the maker amount separately, never with
    their sum: it passes whenever the balance covers each of the two.  The
    sample offer shows it: the maker fills 50 of its own offer holding 100,
    which covers the taker leg (50) and the maker leg (100) but not the
    combined amount (150); the validation passes and the fill is
    submitted. *)
Theorem self_fill_balances_checked_per_leg :
  (forall verifyTypedData getOfferRelevantState
          (divaDomain : DivaDomain) (offer : OfferCreateContingentPool)
          (type : TypedDataTypes) (signature : Signature)
          (takerFillAmount makerFill balance : Z) (w : World),
     let state := getOfferRelevantState (token w) offer signature in
     passes_up_to_signature state (verifyTypedData divaDomain type offer signature)
       offer takerFillAmount ->
     taker_allowed offer (maker offer) ->
     ~ (takerFilledAmount (offerInfo state) = 0
        /\ takerFillAmount < minimumTakerFillAmount offer) ->
     takerFillAmount <= balance ->
     makerFill <= balance ->
     outcome
       (_checkConditions verifyTypedData getOfferRelevantState divaDomain offer
          type signature (maker offer) takerFillAmount makerFill balance balance) w
     = Returned tt)
  /\ (let w := fresh_world [alice; bob] 100 in
      let run :=
        main diva_address sample_type recovers_maker (state_view Fillable 0)
          (sample_response sample_offer) alice 50 in
      maker sample_offer = alice
      /\ outcome (balanceOf alice) w = Returned 100
      /\ makerFillAmount sample_offer 50 = Some 100
      /\ totalCollateralFillAmount sample_offer 50 = Some 150
      /\ outcome (prepare diva_address sample_offer alice 50) w
         = Returned (100, 100, 100)
      /\ outcome run w = Returned tt
      /\ sent (world_after run w)
         = [Approve alice diva_address 151;
            FillOfferCreateContingentPool alice sample_offer sample_signature 50]).
Proof.
  split.
  - intros. now apply self_fill_checks_each_leg.
  - vm_compute. repeat split; reflexivity.
Qed.

Lemma self_fill_balances_checked_per_leg_witness :
  outcome
    (_checkConditions recovers_maker (state_view Fillable 0) sample_domain
       sample_offer sample_type sample_signature alice 50 100 100 100)
    (fresh_world [alice; bob] 100)
  = Returned tt.
Proof.
  apply (proj1 self_fill_balances_checked_per_leg recovers_maker
           (state_view Fillable 0) sample_domain sample_offer sample_type
           sample_signature 50 100 100 (fresh_world [alice; bob] 100)).
  - repeat split; simpl; lia.
  - left. reflexivity.
  - simpl. lia.
  - lia.
  - lia.
Defined.

(** ** Further properties of the fill amounts and of the error texts *)

(** X8: a request within the offer (between 0 and the taker amount) never
    asks the maker for more than the offer's maker amount, nor for a
    negative amount. *)
Theorem makerFillAmount_bounded (offer : OfferCreateContingentPool) (requested : Z) :
  0 <= makerCollateralAmount offer ->
  0 < takerCollateralAmount offer ->
  0 <= requested <= takerCollateralAmount offer ->
  exists makerFill : Z,
    makerFillAmount offer requested = Some makerFill
    /\ 0 <= makerFill <= makerCollateralAmount offer.
Proof.
  intros Hm Ht Hr. eexists. split; [apply makerFillAmount_unsigned; lia|].
  split.
  - apply Z.div_pos; nia.
  - apply Z.div_le_upper_bound; nia.
Qed.

Lemma makerFillAmount_bounded_witness :
  exists makerFill : Z,
    makerFillAmount sample_offer 7 = Some makerFill /\ 0 <= makerFill <= 100.
Proof.
  apply (makerFillAmount_bounded sample_offer 7); simpl; lia.
Defined.

(** X9: filling an offer in two steps asks the maker for at most one unit
    less than filling the sum at once, and never for more: the truncation
    of each division loses less than one unit. *)
Theorem makerFillAmount_split (offer : OfferCreateContingentPool) (a b : Z) :
  0 <= makerCollateralAmount offer ->
  0 < takerCollateralAmount offer ->
  0 <= a -> 0 <= b ->
  exists qa qb qab : Z,
    makerFillAmount offer a = Some qa
    /\ makerFillAmount offer b = Some qb
    /\ makerFillAmount offer (a + b) = Some qab
    /\ qa + qb <= qab <= qa + qb + 1.
Proof.
  intros Hm Ht Ha Hb.
  eexists _, _, _.
  repeat split; [apply makerFillAmount_unsigned; lia ..| |].
  - pose proof (floor_bounds (makerCollateralAmount offer * a) _ Ht).
    pose proof (floor_bounds (makerCollateralAmount offer * b) _ Ht).
    apply Z.div_le_lower_bound; [lia|]. nia.
  - pose proof (floor_bounds (makerCollateralAmount offer * a) _ Ht).
    pose proof (floor_bounds (makerCollateralAmount offer * b) _ Ht).
    apply Z.lt_succ_r, Z.div_lt_upper_bound; [lia|]. nia.
Qed.

Lemma makerFillAmount_split_witness :
  exists qa qb qab : Z,
    makerFillAmount {| maker := alice; taker := AddressZero;
                       makerCollateralAmount := 10; takerCollateralAmount := 4;
                       minimumTakerFillAmount := 0; offerExpiry := 0;
                       salt := "1" |} 1 = Some qa
    /\ makerFillAmount {| maker := alice; taker := AddressZero;
                          makerCollateralAmount := 10; takerCollateralAmount := 4;
                          minimumTakerFillAmount := 0; offerExpiry := 0;
                          salt := "1" |} 1 = Some qb
    /\ makerFillAmount {| maker := alice; taker := AddressZero;
                          makerCollateralAmount := 10; takerCollateralAmount := 4;
                          minimumTakerFillAmount := 0; offerExpiry := 0;
                          salt := "1" |} (1 + 1) = Some qab
    /\ qa + qb <= qab <= qa + qb + 1.
Proof.
  apply (makerFillAmount_split
           {| maker := alice; taker := AddressZero;
              makerCollateralAmount := 10; takerCollateralAmount := 4;
              minimumTakerFillAmount := 0; offerExpiry := 0; salt := "1" |} 1 1);
    simpl; lia.
Defined.

(** X10: the texts thrown by [_checkConditions] tell the reasons apart: no
    two reasons share a message. *)
Theorem message_injective (r1 r2 : Reason) :
  message r1 = message r2 -> r1 = r2.
Proof.
  destruct r1, r2; simpl; intros H; try reflexivity; discriminate H.
Qed.

Lemma message_injective_witness : InvalidSignature = InvalidSignature.
Proof.
  apply (message_injective InvalidSignature InvalidSignature). reflexivity.
Defined.

(** ** The add-liquidity scripts *)

Ltac split_liquidity_checks :=
  unfold AddLiquidity._checkConditions, Add._checkConditions,
    BigNumber.gt, BigNumber.lt, BigNumber.add;
  cbv zeta;
  repeat match goal with
    | |- context [String.eqb ?a ?b] => destruct (String.eqb_spec a b); simpl
    | |- context [Z.geb ?a ?b] => destruct (Z.geb_spec a b); simpl
    | |- context [Z.ltb ?a ?b] => destruct (Z.ltb_spec a b); simpl
    end.

(** An accepted validation has found the balance sufficient. *)
Lemma addLiquidity_accepts_iff_aux
    (env : PoolEnv) (poolParams : PoolStruct) (additionalAmount : Z)
    (longRecipient shortRecipient : address) (collateralBalanceUser : Z) :
  AddLiquidity._checkConditions env poolParams additionalAmount
    longRecipient shortRecipient collateralBalanceUser = Passed ->
  additionalAmount <= collateralBalanceUser.
Proof. split_liquidity_checks; (discriminate || lia). Qed.

(** X11: [_checkConditions] of addLiquidity.ts returns without throwing
    exactly when neither recipient is the zero address, the clock reading is
    strictly before the pool's expiry, the pool's collateral balance plus
    the added amount does not exceed the capacity (reaching it exactly is
    allowed) and the user's balance covers the amount. *)
Theorem addLiquidity_accepts_iff
    (env : PoolEnv) (poolParams : PoolStruct) (additionalAmount : Z)
    (longRecipient shortRecipient : address) (collateralBalanceUser : Z) :
  AddLiquidity._checkConditions env poolParams additionalAmount
    longRecipient shortRecipient collateralBalanceUser = Passed
  <-> longRecipient <> AddressZero
      /\ shortRecipient <> AddressZero
      /\ getCurrentTimestamp env < Number env (expiryTime poolParams)
      /\ collateralBalance poolParams + additionalAmount <= capacity poolParams
      /\ additionalAmount <= collateralBalanceUser.
Proof.
  split_liquidity_checks; split;
    try discriminate; try (intros; repeat split; (assumption || lia));
    intros (? & ? & ? & ? & ?); try contradiction; try lia.
Qed.

(** X12: the checks of addLiquidity.ts are reported in a fixed order of
    precedence: a zero long recipient, then a zero short recipient, then an
    expired pool (clock reading at or past the expiry), then an exceeded
    capacity, then an insufficient balance; each reason is thrown exactly
    when its own condition holds and none of the earlier ones does. *)
Theorem addLiquidity_rejections
    (env : PoolEnv) (poolParams : PoolStruct) (additionalAmount : Z)
    (longRecipient shortRecipient : address) (collateralBalanceUser : Z) :
  let result :=
    AddLiquidity._checkConditions env poolParams additionalAmount
      longRecipient shortRecipient collateralBalanceUser in
  (result = Rejected AddLiquidity.LongRecipientZero
   <-> longRecipient = AddressZero)
  /\ (result = Rejected AddLiquidity.ShortRecipientZero
      <-> longRecipient <> AddressZero /\ shortRecipient = AddressZero)
  /\ (result = Rejected AddLiquidity.PoolExpired
      <-> longRecipient <> AddressZero /\ shortRecipient <> AddressZero
          /\ Number env (expiryTime poolParams) <= getCurrentTimestamp env)
  /\ (result = Rejected AddLiquidity.CapacityExceeded
      <-> longRecipient <> AddressZero /\ shortRecipient <> AddressZero
          /\ getCurrentTimestamp env < Number env (expiryTime poolParams)
          /\ capacity poolParams < collateralBalance poolParams + additionalAmount)
  /\ (result = Rejected AddLiquidity.InsufficientCollateral
      <-> longRecipient <> AddressZero /\ shortRecipient <> AddressZero
          /\ getCurrentTimestamp env < Number env (expiryTime poolParams)
          /\ collateralBalance poolParams + additionalAmount <= capacity poolParams
          /\ collateralBalanceUser < additionalAmount).
Proof.
  intros result. subst result.
  split_liquidity_checks;
    (split; [|split; [|split; [|split]]]); split; intros Hside;
    try discriminate Hside; try reflexivity;
    try (repeat split; first [assumption | lia]);
    try (exfalso; intuition (congruence || lia)).
Qed.

(** X13: the two add-liquidity scripts validate alike: they accept the same
    inputs; the one message of the [yarn diva::add] script for a zero
    recipient stands for either of the two recipient messages of
    addLiquidity.ts; every other rejection carries the same text in both;
    and whatever the validation says, both scripts leave the same chain
    behind. *)
Theorem add_scripts_agree
    (env : PoolEnv) (poolParams : PoolStruct) (additionalAmount : Z)
    (longRecipient shortRecipient : address) (collateralBalanceUser : Z) :
  let one :=
    Add._checkConditions env poolParams additionalAmount
      longRecipient shortRecipient collateralBalanceUser in
  let other :=
    AddLiquidity._checkConditions env poolParams additionalAmount
      longRecipient shortRecipient collateralBalanceUser in
  (one = Passed <-> other = Passed)
  /\ (one = Rejected Add.RecipientZero
      <-> other = Rejected AddLiquidity.LongRecipientZero
          \/ other = Rejected AddLiquidity.ShortRecipientZero)
  /\ (forall r : Add.Reason,
        one = Rejected r -> r <> Add.RecipientZero ->
        exists r' : AddLiquidity.Reason,
          other = Rejected r' /\ AddLiquidity.message r' = Add.message r)
  /\ (forall (poolId : string) (w : PoolWorld),
        snd (Add.main env poolId additionalAmount longRecipient shortRecipient w)
        = snd (AddLiquidity.main env poolId additionalAmount
                 longRecipient shortRecipient w)).
Proof.
  intros one other. subst one other.
  split; [|split; [|split]].
  - split_liquidity_checks; split; (discriminate || reflexivity).
  - split_liquidity_checks; split;
      try discriminate; try (intros [|]; discriminate); auto.
  - intros r. split_liquidity_checks; intros [= <-] Hr;
      try contradiction; eexists; split; reflexivity.
  - intros poolId w. unfold Add.main, AddLiquidity.main. cbv zeta.
    split_liquidity_checks; reflexivity.
Qed.

(** X14: both add-liquidity scripts validate before they touch the chain:
    a run whose validation throws has sent nothing, neither an approval nor
    [addLiquidity], and leaves every allowance as it was. *)
Theorem add_liquidity_rejected_sends_nothing
    (env : PoolEnv) (poolId : string) (additionalAmount : Z)
    (longRecipient shortRecipient : address) (w : PoolWorld) :
  (forall r : AddLiquidity.Reason,
     fst (AddLiquidity.main env poolId additionalAmount
            longRecipient shortRecipient w) = Rejected r ->
     snd (AddLiquidity.main env poolId additionalAmount
            longRecipient shortRecipient w) = w)
  /\ (forall r : Add.Reason,
        fst (Add.main env poolId additionalAmount
               longRecipient shortRecipient w) = Rejected r ->
        snd (Add.main env poolId additionalAmount
               longRecipient shortRecipient w) = w).
Proof.
  unfold AddLiquidity.main, Add.main. cbv zeta. split; intros r.
  - destruct (AddLiquidity._checkConditions _ _ _ _ _ _); simpl;
      [discriminate | reflexivity].
  - destruct (Add._checkConditions _ _ _ _ _ _); simpl;
      [discriminate | reflexivity].
Qed.

Lemma add_liquidity_rejected_sends_nothing_witness :
  snd (AddLiquidity.main sample_env sample_poolId 2000 bob carol
         (fresh_pool_world [alice] 5000))
  = fresh_pool_world [alice] 5000.
Proof.
  apply (proj1 (add_liquidity_rejected_sends_nothing sample_env sample_poolId 2000
                  bob carol (fresh_pool_world [alice] 5000))
           AddLiquidity.CapacityExceeded).
  reflexivity.
Defined.

(** X15: a run of the add-liquidity script whose validation passes sends
    [addLiquidity] last, preceded by one approval exactly when the
    provider's allowance for the settlement contract is below the amount;
    the approval is for the amount itself, without any buffer, so the
    allowance at submission is the larger of the old allowance and the
    amount; no balance and no other allowance changes. *)
Theorem add_liquidity_accepted_run
    (env : PoolEnv) (poolId : string) (additionalAmount : Z)
    (longRecipient shortRecipient : address) (w : PoolWorld) :
  let run :=
    AddLiquidity.main env poolId additionalAmount longRecipient shortRecipient w in
  let provider := liquidityProvider env in
  let before := default 0 (allowances (pool_token w) !! (provider, diva env)) in
  fst run = Passed ->
  pool_sent (snd run)
  = (pool_sent w
     ++ (if decide (before < additionalAmount)
         then [ApproveCollateral provider (diva env) additionalAmount]
         else [])
     ++ [AddLiquidityTx provider poolId additionalAmount
           longRecipient shortRecipient])%list
  /\ default 0 (allowances (pool_token (snd run)) !! (provider, diva env))
     = Z.max before additionalAmount
  /\ balances (pool_token (snd run)) = balances (pool_token w)
  /\ (forall owner spender : address,
        (owner, spender) <> (provider, diva env) ->
        allowances (pool_token (snd run)) !! (owner, spender)
        = allowances (pool_token w) !! (owner, spender))
  /\ additionalAmount <= default 0 (balances (pool_token w) !! provider).
Proof.
  intros run provider before. subst run.
  unfold AddLiquidity.main. cbv zeta.
  destruct (AddLiquidity._checkConditions _ _ _ _ _ _) eqn:Hcheck; simpl;
    [|discriminate].
  intros _. apply addLiquidity_accepts_iff_aux in Hcheck.
  unfold approveAndAdd, approveCollateral, BigNumber.lt. cbv zeta.
  fold provider before.
  destruct (Z.ltb_spec before additionalAmount) as [Hlow|Hhigh]; simpl;
    case_decide; try lia.
  - rewrite lookup_insert_eq. simpl. rewrite <- app_assoc.
    repeat split; try reflexivity; try exact Hcheck; try lia.
    intros owner spender Hother. now rewrite lookup_insert_ne.
  - repeat split; try reflexivity; try exact Hcheck; lia.
Qed.

Lemma add_liquidity_accepted_run_witness :
  pool_sent (snd (AddLiquidity.main sample_env sample_poolId 1000 bob carol
                    (fresh_pool_world [alice] 5000)))
  = [ApproveCollateral alice diva_address 1000;
     AddLiquidityTx alice sample_poolId 1000 bob carol].
Proof.
  apply (add_liquidity_accepted_run sample_env sample_poolId 1000 bob carol
           (fresh_pool_world [alice] 5000)).
  reflexivity.
Defined.

(** ** The approvals of the fill script, exactly *)

(** The combined amount of a self-fill, from the two legs. *)
Lemma totalCollateralFillAmount_legs
    (offer : OfferCreateContingentPool) (requested : Z) :
  0 <= makerCollateralAmount offer ->
  0 <= requested ->
  0 < takerCollateralAmount offer ->
  exists makerFill : Z,
    makerFillAmount offer requested = Some makerFill
    /\ totalCollateralFillAmount offer requested = Some (makerFill + requested).
Proof.
  intros Hm Hr Ht. eexists. split; [now apply makerFillAmount_unsigned|].
  unfold totalCollateralFillAmount, BigNumber.mul, BigNumber.add.
  rewrite div_unsigned by nia. f_equal.
  rewrite Z.mul_add_distr_r, (Z.mul_comm (takerCollateralAmount offer) requested).
  apply Z.div_add. lia.
Qed.

(** X3: for an offer with unsigned amounts and a positive taker amount,
    the preparation sends these approvals and no other transaction: with
    two parties, the maker fill amount plus one for the maker when the
    maker's allowance is below the maker fill amount, then the taker fill
    amount plus one for the taker when the taker's allowance is below the
    taker fill amount; when the taker is the maker, a single approval of
    maker fill amount plus taker fill amount plus one, when the allowance is
    below their sum. *)
Theorem prepare_approvals
    (DIVA_ADDRESS : address) (offer : OfferCreateContingentPool)
    (takerAddress : address) (takerFillAmount : Z) (w : World) :
  0 <= makerCollateralAmount offer ->
  0 < takerCollateralAmount offer ->
  0 <= takerFillAmount ->
  let prepared :=
    world_after (prepare DIVA_ADDRESS offer takerAddress takerFillAmount) w in
  let makerFill :=
    makerCollateralAmount offer * takerFillAmount / takerCollateralAmount offer in
  let allowed (owner : address) :=
    default 0 (allowances (token w) !! (owner, DIVA_ADDRESS)) in
  (takerAddress <> maker offer ->
     sent prepared
     = (sent w
        ++ (if decide (allowed (maker offer) < makerFill)
            then [Approve (maker offer) DIVA_ADDRESS (makerFill + 1)] else [])
        ++ (if decide (allowed takerAddress < takerFillAmount)
            then [Approve takerAddress DIVA_ADDRESS (takerFillAmount + 1)]
            else []))%list)
  /\ (takerAddress = maker offer ->
      sent prepared
      = (sent w
         ++ (if decide (allowed (maker offer) < makerFill + takerFillAmount)
             then [Approve (maker offer) DIVA_ADDRESS
                     (makerFill + takerFillAmount + 1)]
             else []))%list).
Proof.
  intros Hm Ht Hr prepared makerFill allowed. subst prepared allowed.
  assert (Htotal : totalCollateralFillAmount offer takerFillAmount
                   = Some (makerFill + takerFillAmount)).
  { destruct (totalCollateralFillAmount_legs offer takerFillAmount Hm Hr Ht)
      as (mk & Hmk & Htotal).
    rewrite makerFillAmount_unsigned in Hmk by assumption.
    injection Hmk as <-. exact Htotal. }
  unfold world_after, prepare, setAllowances, setAllowanceIfInsufficient,
    BigNumber.lt, BigNumber.add, bind, of_div, ret, throw, balanceOf, allowance,
    approve.
  rewrite makerFillAmount_unsigned by assumption. fold makerFill. simpl.
  destruct (String.eqb_spec takerAddress (maker offer)) as [Hself|Hother]; simpl;
    (split; [intros Hyes|intros Hno]); try contradiction.
  - rewrite Htotal. simpl.
    destruct (Z.ltb_spec
                (default 0 (allowances (token w) !! (maker offer, DIVA_ADDRESS)))
                (makerFill + takerFillAmount)); simpl;
      case_decide; try lia; [reflexivity | now rewrite app_nil_r].
  - assert (Hne : (maker offer, DIVA_ADDRESS) <> (takerAddress, DIVA_ADDRESS))
      by (intros [= Heq]; now apply Hother).
    destruct (Z.ltb_spec
                (default 0 (allowances (token w) !! (maker offer, DIVA_ADDRESS)))
                makerFill); simpl;
      destruct (Z.ltb_spec
                  (default 0 (allowances (token w) !! (takerAddress, DIVA_ADDRESS)))
                  takerFillAmount); simpl;
      repeat case_decide; try lia; simpl;
      rewrite ?app_nil_r, <- ?app_assoc; reflexivity.
Qed.

Lemma prepare_approvals_witness :
  sent (world_after (prepare diva_address sample_offer alice 50)
          (fresh_world [alice; bob] 1000))
  = [Approve alice diva_address (100 * 50 / 50 + 50 + 1)].
Proof.
  apply (proj2 (prepare_approvals diva_address sample_offer alice 50
                  (fresh_world [alice; bob] 1000)
                  ltac:(simpl; lia) ltac:(simpl; lia) ltac:(lia))).
  reflexivity.
Defined.

(** ** The further properties on the sample data *)

Lemma checkConditions_accepts_iff_witness :
  outcome
    (_checkConditions recovers_maker (state_view Fillable 0) sample_domain
       sample_offer sample_type sample_signature bob 50 100 1000 1000)
    (fresh_world [alice; bob] 1000)
  = Returned tt.
Proof.
  apply (proj2 (checkConditions_accepts_iff recovers_maker (state_view Fillable 0)
                  sample_domain sample_offer sample_type sample_signature
                  bob 50 100 1000 1000 (fresh_world [alice; bob] 1000))).
  simpl. repeat split; try reflexivity; try lia. now left.
Defined.

Lemma status_is_reported_first_witness :
  outcome
    (_checkConditions recovers_maker (state_view Cancelled 0) sample_domain
       sample_offer sample_type sample_signature bob 50 100 0 0)
    (fresh_world [alice; bob] 0)
  = Raised (Thrown StatusCancelled).
Proof.
  apply (status_is_reported_first recovers_maker (state_view Cancelled 0)
           sample_domain sample_offer sample_type sample_signature
           bob 50 100 0 0 (fresh_world [alice; bob] 0)).
  discriminate.
Defined.

Lemma prepare_only_raises_allowances_witness :
  allowances
    (token (world_after (prepare diva_address sample_offer bob 50)
              (fresh_world [alice; bob] 1000)))
  !! (carol, diva_address)
  = allowances (token (fresh_world [alice; bob] 1000)) !! (carol, diva_address).
Proof.
  apply (proj2 (proj2 (prepare_only_raises_allowances diva_address sample_offer
                         bob 50 (fresh_world [alice; bob] 1000)))).
  right. split; discriminate.
Defined.

Lemma main_zero_taker_amount_witness :
  world_after
    (main diva_address sample_type recovers_maker (state_view Invalid 0)
       (sample_response
          {| maker := alice; taker := AddressZero;
             makerCollateralAmount := 100; takerCollateralAmount := 0;
             minimumTakerFillAmount := 0; offerExpiry := 1700000000;
             salt := "1667548800000" |})
       bob 50)
    (fresh_world [alice; bob] 1000)
  = fresh_world [alice; bob] 1000.
Proof.
  apply (proj2 (main_zero_taker_amount diva_address sample_type recovers_maker
                  (state_view Invalid 0)
                  (sample_response
                     {| maker := alice; taker := AddressZero;
                        makerCollateralAmount := 100; takerCollateralAmount := 0;
                        minimumTakerFillAmount := 0; offerExpiry := 1700000000;
                        salt := "1667548800000" |})
                  bob 50 (fresh_world [alice; bob] 1000))).
  reflexivity.
Defined.

Lemma main_success_guarantees_witness :
  exists (makerFill : Z) (approvals : list Tx),
    makerFillAmount sample_offer 50 = Some makerFill
    /\ Forall is_approve approvals
    /\ makerFill
       <= default 0
            (allowances
               (token
                  (world_after
                     (main diva_address sample_type recovers_maker
                        (state_view Fillable 0) (sample_response sample_offer)
                        bob 50)
                     (fresh_world [alice; bob] 1000)))
             !! (alice, diva_address)).
Proof.
  destruct (main_success_guarantees diva_address sample_type recovers_maker
              (state_view Fillable 0) (sample_response sample_offer) bob 50
              (fresh_world [alice; bob] 1000) eq_refl)
    as (makerFill & approvals & Hfill & _ & Happrovals & _ & _ & _ & _ & _
        & Htwo & _).
  exists makerFill, approvals. repeat split; try assumption.
  apply Htwo. discriminate.
Defined.

Lemma addLiquidity_accepts_iff_witness :
  AddLiquidity._checkConditions sample_env sample_pool 1000 bob carol 5000 = Passed.
Proof.
  apply (proj2 (addLiquidity_accepts_iff sample_env sample_pool 1000 bob carol 5000)).
  repeat split; try discriminate; simpl; lia.
Defined.

Lemma addLiquidity_rejections_witness :
  AddLiquidity._checkConditions sample_env sample_pool 1001 bob carol 5000
  = Rejected AddLiquidity.CapacityExceeded.
Proof.
  apply (proj2 (proj1 (proj2 (proj2 (proj2
           (addLiquidity_rejections sample_env sample_pool 1001 bob carol 5000)))))).
  repeat split; try discriminate; simpl; lia.
Defined.

Lemma add_scripts_agree_witness :
  exists r' : AddLiquidity.Reason,
    AddLiquidity._checkConditions sample_env sample_pool 1001 bob carol 5000
    = Rejected r'
    /\ AddLiquidity.message r' = Add.message Add.CapacityExceeded.
Proof.
  apply (proj1 (proj2 (proj2
           (add_scripts_agree sample_env sample_pool 1001 bob carol 5000)))
           Add.CapacityExceeded).
  - reflexivity.
  - discriminate.
Defined.
